(** * Traffic Simulation Platform: the client-side session state machine

    A shallow embedding of the front end's simulation session logic:

    - [types/index.ts]: the records exchanged between components;
    - [contexts/SimulationContext.tsx]: the store ([simulationReducer] and the
      operations built on [dispatch]);
    - [components/simulation/SimulationConfig.tsx]: the configuration form,
      its validation and its sliders;
    - [pages/Simulation.tsx]: the page that starts, stops and resets a
      session and owns the metrics timer;
    - [components/simulation/MetricsDashboard.tsx]: the chart history.

    A JavaScript [number] is an IEEE 754 binary64 value, so it is embedded as
    Rocq's primitive [float]; [>=], [<=], [>], [===] on numbers are the
    primitive comparisons ([NaN] compares false with everything, [0] equals
    [-0]).  React state updates are embedded as functions on an explicit
    application state; [Date.now()], [Math.random()] and the wall clock are
    arguments of the handlers that read them. *)

From Stdlib Require Import ZArith String Ascii List Bool Lia Floats DecimalString.
From Stdlib Require DecimalPos DecimalZ.
Import ListNotations.

Set Warnings "-inexact-float".

Local Open Scope string_scope.
Local Open Scope list_scope.

(** ** Numbers *)

Definition number := float.

(** The number denoted by an integer literal or produced by an integer
    computation: the integer rounded to binary64 (exact below [2^53]). *)
Definition Z2F (z : Z) : number := SF2Prim (binary_normalize prec emax z 0 false).

(** Decimal rendering of an integer, as [String(n)] and template literals
    print an integral number. *)
Definition string_of_Z (z : Z) : string := NilZero.string_of_int (Z.to_int z).

(** ** types/index.ts *)

Module RoadSegment.
Record t := {
    id : string;
    start_point : number * number;
    end_point : number * number;
    road_type : string;
    num_lanes : number;
    speed_limit : number;
    width : number;
    length : number
}.
End RoadSegment.

Module Intersection.
Record t := {
    id : string;
    center_point : number * number;
    intersection_type : string;
    connected_segments : list string
}.
End Intersection.

Module Lane.
Record t := {
    id : string;
    road_segment_id : string;
    lane_number : number;
    start_point : number * number;
    end_point : number * number;
    width : number;
    direction : string
}.
End Lane.

Module NetworkMetrics.
Record t := {
    total_length_km : number;
    total_lanes : number;
    avg_speed_limit_kmh : number;
    num_segments : number;
    num_intersections : number
}.
End NetworkMetrics.

Module RoadNetwork.
Record t := {
    id : string;
    segments : list RoadSegment.t;
    intersections : list Intersection.t;
    lanes : list Lane.t;
    bounds : (number * number) * (number * number);
    metrics : NetworkMetrics.t
}.
End RoadNetwork.

Record SimulationConfig := {
  vehicles_per_hour : number;
  car_percentage : number;
  truck_percentage : number;
  peak_hour_factor : number;
  signal_control : string;
  green_time : number;
  yellow_time : number;
  red_time : number;
  simulation_duration : number
}.

Record SimulationMetrics := {
  average_speed_kmh : number;
  total_queue_length : number;
  average_wait_time_seconds : number;
  throughput_vehicles_per_hour : number;
  time : option number;
  total_vehicles : option number;
  waiting_vehicles : option number
}.

Module SimulationTemplate.
Record t := {
    name : string;
    description : string;
    vehicles_per_hour : number;
    car_percentage : number;
    truck_percentage : number;
    peak_hour_factor : number;
    signal_control : string;
    green_time : number;
    yellow_time : number;
    red_time : number
}.
End SimulationTemplate.

(** The string union ["idle" | "running" | "paused" | "completed" | "error"]. *)
Inductive Status := Idle | Running | Paused | Completed | Error.

Record SimulationStatus := {
  simulation_id : string;
  status : Status;
  message : string;
  metrics : option SimulationMetrics
}.

(** An object literal that lists only the four required fields. *)
Definition mkMetrics (speed queue wait throughput : number) : SimulationMetrics :=
  {| average_speed_kmh := speed;
     total_queue_length := queue;
     average_wait_time_seconds := wait;
     throughput_vehicles_per_hour := throughput;
     time := None; total_vehicles := None; waiting_vehicles := None |}.

(** ** contexts/SimulationContext.tsx *)

Record SimulationState := {
  currentSimulation : option SimulationStatus;
  roadNetwork : option RoadNetwork.t;
  simulationConfig : option SimulationConfig;
  templates : list SimulationTemplate.t;
  isLoading : bool;
  error : option string
}.

Inductive SimulationAction :=
| SET_LOADING (payload : bool)
| SET_ERROR (payload : option string)
| SET_ROAD_NETWORK (payload : RoadNetwork.t)
| SET_SIMULATION_CONFIG (payload : SimulationConfig)
| START_SIMULATION (payload : string)
| UPDATE_METRICS (payload : SimulationMetrics)
| STOP_SIMULATION
| SET_TEMPLATES (payload : list SimulationTemplate.t)
| CLEAR_SIMULATION.

Definition initialState : SimulationState :=
  {| currentSimulation := None;
     roadNetwork := None;
     simulationConfig := None;
     templates := [];
     isLoading := false;
     error := None |}.

(** Object spreads [{ ...state, field: v }], one per overwritten field. *)
Definition with_currentSimulation (v : option SimulationStatus) (s : SimulationState) :=
  {| currentSimulation := v; roadNetwork := roadNetwork s;
     simulationConfig := simulationConfig s; templates := templates s;
     isLoading := isLoading s; error := error s |}.

Definition with_roadNetwork (v : option RoadNetwork.t) (s : SimulationState) :=
  {| currentSimulation := currentSimulation s; roadNetwork := v;
     simulationConfig := simulationConfig s; templates := templates s;
     isLoading := isLoading s; error := error s |}.

Definition with_simulationConfig (v : option SimulationConfig) (s : SimulationState) :=
  {| currentSimulation := currentSimulation s; roadNetwork := roadNetwork s;
     simulationConfig := v; templates := templates s;
     isLoading := isLoading s; error := error s |}.

Definition with_templates (v : list SimulationTemplate.t) (s : SimulationState) :=
  {| currentSimulation := currentSimulation s; roadNetwork := roadNetwork s;
     simulationConfig := simulationConfig s; templates := v;
     isLoading := isLoading s; error := error s |}.

Definition with_isLoading (v : bool) (s : SimulationState) :=
  {| currentSimulation := currentSimulation s; roadNetwork := roadNetwork s;
     simulationConfig := simulationConfig s; templates := templates s;
     isLoading := v; error := error s |}.

Definition with_error (v : option string) (s : SimulationState) :=
  {| currentSimulation := currentSimulation s; roadNetwork := roadNetwork s;
     simulationConfig := simulationConfig s; templates := templates s;
     isLoading := isLoading s; error := v |}.

Definition simulationReducer (state : SimulationState) (action : SimulationAction)
  : SimulationState :=
  match action with
  | SET_LOADING payload => with_isLoading payload state
  | SET_ERROR payload => with_error payload state
  | SET_ROAD_NETWORK payload => with_roadNetwork (Some payload) state
  | SET_SIMULATION_CONFIG payload => with_simulationConfig (Some payload) state
  | START_SIMULATION payload =>
      with_error None
        (with_currentSimulation
           (Some {| simulation_id := payload;
                    status := Running;
                    message := "Simulation started successfully";
                    metrics := None |})
           state)
  | UPDATE_METRICS payload =>
      with_currentSimulation
        (match currentSimulation state with
         | Some cur =>
             Some {| simulation_id := simulation_id cur;
                     status := status cur;
                     message := message cur;
                     metrics := Some payload |}
         | None => None
         end)
        state
  | STOP_SIMULATION =>
      with_currentSimulation
        (match currentSimulation state with
         | Some cur =>
             Some {| simulation_id := simulation_id cur;
                     status := Completed;
                     message := "Simulation completed";
                     metrics := metrics cur |}
         | None => None
         end)
        state
  | SET_TEMPLATES payload => with_templates payload state
  | CLEAR_SIMULATION =>
      with_simulationConfig None
        (with_roadNetwork None (with_currentSimulation None state))
  end.

(** Handlers are sequences of state updates; [f ;; g] runs [f], then [g]. *)
Definition andThen {S : Type} (f g : S -> S) : S -> S := fun s => g (f s).
Notation "f ;; g" := (andThen f g) (at level 61, left associativity).

Definition dispatch (action : SimulationAction) : SimulationState -> SimulationState :=
  fun state => simulationReducer state action.

(** [startSimulation]: no statement of the [try] block can throw, so the
    [catch] branch is never taken and the [finally] block runs last.
    [now] is the value of [Date.now()]. *)
Definition startSimulation (config : SimulationConfig) (now : Z)
  : SimulationState -> SimulationState :=
  dispatch (SET_LOADING true) ;;
  dispatch (SET_ERROR None) ;;
  dispatch (START_SIMULATION ("sim_" ++ string_of_Z now)) ;;
  dispatch (SET_SIMULATION_CONFIG config) ;;
  dispatch (SET_LOADING false).

(** [stopSimulation]: the awaited promise always resolves (a one second
    timeout), after which the session is stopped. *)
Definition stopSimulation : SimulationState -> SimulationState :=
  dispatch (SET_LOADING true) ;;
  dispatch STOP_SIMULATION ;;
  dispatch (SET_LOADING false).

Definition updateMetrics (m : SimulationMetrics) : SimulationState -> SimulationState :=
  dispatch (UPDATE_METRICS m).

Definition setRoadNetwork (network : RoadNetwork.t) : SimulationState -> SimulationState :=
  dispatch (SET_ROAD_NETWORK network).

Definition setSimulationConfig (config : SimulationConfig)
  : SimulationState -> SimulationState :=
  dispatch (SET_SIMULATION_CONFIG config).

Definition mockTemplates : list SimulationTemplate.t :=
  [ {| SimulationTemplate.name := "Urban Intersection";
       SimulationTemplate.description := "Standard 4-way intersection with traffic lights";
       SimulationTemplate.vehicles_per_hour := 1500;
       SimulationTemplate.car_percentage := 85.0;
       SimulationTemplate.truck_percentage := 15.0;
       SimulationTemplate.peak_hour_factor := 1.2;
       SimulationTemplate.signal_control := "fixed_time";
       SimulationTemplate.green_time := 30;
       SimulationTemplate.yellow_time := 3;
       SimulationTemplate.red_time := 30 |};
    {| SimulationTemplate.name := "Highway Merge";
       SimulationTemplate.description := "Highway on-ramp merge scenario";
       SimulationTemplate.vehicles_per_hour := 3000;
       SimulationTemplate.car_percentage := 90.0;
       SimulationTemplate.truck_percentage := 10.0;
       SimulationTemplate.peak_hour_factor := 1.5;
       SimulationTemplate.signal_control := "actuated";
       SimulationTemplate.green_time := 45;
       SimulationTemplate.yellow_time := 3;
       SimulationTemplate.red_time := 20 |};
    {| SimulationTemplate.name := "Roundabout";
       SimulationTemplate.description := "Multi-lane roundabout intersection";
       SimulationTemplate.vehicles_per_hour := 800;
       SimulationTemplate.car_percentage := 80.0;
       SimulationTemplate.truck_percentage := 20.0;
       SimulationTemplate.peak_hour_factor := 1.0;
       SimulationTemplate.signal_control := "adaptive";
       SimulationTemplate.green_time := 60;
       SimulationTemplate.yellow_time := 3;
       SimulationTemplate.red_time := 0 |} ]%float.

Definition loadTemplates : SimulationState -> SimulationState :=
  dispatch (SET_TEMPLATES mockTemplates).

(** ** parseInt

    [parseInt(string)] with no radix argument: leading white space is
    skipped, a sign is read, a [0x] prefix selects radix 16, and the longest
    prefix of digits is converted; without any digit the result is [NaN]. *)

Definition isWhiteSpace (c : ascii) : bool :=
  let n := nat_of_ascii c in
  ((9 <=? n) && (n <=? 13))%nat || (n =? 32)%nat.

Fixpoint skipWhiteSpace (s : string) : string :=
  match s with
  | String c rest => if isWhiteSpace c then skipWhiteSpace rest else s
  | EmptyString => s
  end.

Definition digitValue (c : ascii) : option Z :=
  let n := Z.of_nat (nat_of_ascii c) in
  if ((48 <=? n) && (n <=? 57))%Z then Some (n - 48)%Z
  else if ((97 <=? n) && (n <=? 122))%Z then Some (n - 87)%Z
  else if ((65 <=? n) && (n <=? 90))%Z then Some (n - 55)%Z
  else None.

Fixpoint parseDigits (radix : Z) (s : string) (acc : option Z) : option Z :=
  match s with
  | String c rest =>
      match digitValue c with
      | Some d =>
          if (d <? radix)%Z
          then parseDigits radix rest
                 (Some (match acc with Some a => a * radix + d | None => d end)%Z)
          else acc
      | None => acc
      end
  | EmptyString => acc
  end.

Definition parseInt (s : string) : number :=
  let s1 := skipWhiteSpace s in
  let '(negative, s2) :=
    match s1 with
    | String "-" rest => (true, rest)
    | String "+" rest => (false, rest)
    | _ => (false, s1)
    end in
  let '(radix, s3) :=
    match s2 with
    | String "0" (String "x" rest) => (16%Z, rest)
    | String "0" (String "X" rest) => (16%Z, rest)
    | _ => (10%Z, s2)
    end in
  match parseDigits radix s3 None with
  | None => nan
  | Some n => if negative then (- Z2F n)%float else Z2F n
  end.

(** ** components/simulation/SimulationConfig.tsx *)

(** The component's local state ([useState]). *)
Record ConfigForm := {
  config : SimulationConfig;
  selectedTemplate : string;
  showAdvanced : bool
}.

Definition defaultConfig : SimulationConfig :=
  {| vehicles_per_hour := 1000;
     car_percentage := 80.0;
     truck_percentage := 20.0;
     peak_hour_factor := 1.0;
     signal_control := "fixed_time";
     green_time := 30;
     yellow_time := 3;
     red_time := 30;
     simulation_duration := 3600 |}%float.

Definition initialForm : ConfigForm :=
  {| config := defaultConfig; selectedTemplate := ""; showAdvanced := false |}.

Definition setConfig (f : SimulationConfig -> SimulationConfig) (s : ConfigForm) : ConfigForm :=
  {| config := f (config s);
     selectedTemplate := selectedTemplate s;
     showAdvanced := showAdvanced s |}.

Definition setSelectedTemplate (k : string) (s : ConfigForm) : ConfigForm :=
  {| config := config s; selectedTemplate := k; showAdvanced := showAdvanced s |}.

Definition setShowAdvanced (b : bool) (s : ConfigForm) : ConfigForm :=
  {| config := config s; selectedTemplate := selectedTemplate s; showAdvanced := b |}.

(** [keyof SimulationConfig], and the type of the value stored under a key. *)
Inductive Field :=
| F_vehicles_per_hour | F_car_percentage | F_truck_percentage
| F_peak_hour_factor | F_signal_control | F_green_time | F_yellow_time
| F_red_time | F_simulation_duration.

Definition FieldValue (field : Field) : Type :=
  match field with
  | F_signal_control => string
  | _ => number
  end.

(** [{ ...prev, [field]: value }] *)
Definition updateField (field : Field) : FieldValue field -> SimulationConfig -> SimulationConfig :=
  match field return FieldValue field -> SimulationConfig -> SimulationConfig with
  | F_vehicles_per_hour => fun v prev =>
      {| vehicles_per_hour := v; car_percentage := car_percentage prev;
         truck_percentage := truck_percentage prev;
         peak_hour_factor := peak_hour_factor prev;
         signal_control := signal_control prev; green_time := green_time prev;
         yellow_time := yellow_time prev; red_time := red_time prev;
         simulation_duration := simulation_duration prev |}
  | F_car_percentage => fun v prev =>
      {| vehicles_per_hour := vehicles_per_hour prev; car_percentage := v;
         truck_percentage := truck_percentage prev;
         peak_hour_factor := peak_hour_factor prev;
         signal_control := signal_control prev; green_time := green_time prev;
         yellow_time := yellow_time prev; red_time := red_time prev;
         simulation_duration := simulation_duration prev |}
  | F_truck_percentage => fun v prev =>
      {| vehicles_per_hour := vehicles_per_hour prev;
         car_percentage := car_percentage prev; truck_percentage := v;
         peak_hour_factor := peak_hour_factor prev;
         signal_control := signal_control prev; green_time := green_time prev;
         yellow_time := yellow_time prev; red_time := red_time prev;
         simulation_duration := simulation_duration prev |}
  | F_peak_hour_factor => fun v prev =>
      {| vehicles_per_hour := vehicles_per_hour prev;
         car_percentage := car_percentage prev;
         truck_percentage := truck_percentage prev; peak_hour_factor := v;
         signal_control := signal_control prev; green_time := green_time prev;
         yellow_time := yellow_time prev; red_time := red_time prev;
         simulation_duration := simulation_duration prev |}
  | F_signal_control => fun v prev =>
      {| vehicles_per_hour := vehicles_per_hour prev;
         car_percentage := car_percentage prev;
         truck_percentage := truck_percentage prev;
         peak_hour_factor := peak_hour_factor prev; signal_control := v;
         green_time := green_time prev; yellow_time := yellow_time prev;
         red_time := red_time prev;
         simulation_duration := simulation_duration prev |}
  | F_green_time => fun v prev =>
      {| vehicles_per_hour := vehicles_per_hour prev;
         car_percentage := car_percentage prev;
         truck_percentage := truck_percentage prev;
         peak_hour_factor := peak_hour_factor prev;
         signal_control := signal_control prev; green_time := v;
         yellow_time := yellow_time prev; red_time := red_time prev;
         simulation_duration := simulation_duration prev |}
  | F_yellow_time => fun v prev =>
      {| vehicles_per_hour := vehicles_per_hour prev;
         car_percentage := car_percentage prev;
         truck_percentage := truck_percentage prev;
         peak_hour_factor := peak_hour_factor prev;
         signal_control := signal_control prev; green_time := green_time prev;
         yellow_time := v; red_time := red_time prev;
         simulation_duration := simulation_duration prev |}
  | F_red_time => fun v prev =>
      {| vehicles_per_hour := vehicles_per_hour prev;
         car_percentage := car_percentage prev;
         truck_percentage := truck_percentage prev;
         peak_hour_factor := peak_hour_factor prev;
         signal_control := signal_control prev; green_time := green_time prev;
         yellow_time := yellow_time prev; red_time := v;
         simulation_duration := simulation_duration prev |}
  | F_simulation_duration => fun v prev =>
      {| vehicles_per_hour := vehicles_per_hour prev;
         car_percentage := car_percentage prev;
         truck_percentage := truck_percentage prev;
         peak_hour_factor := peak_hour_factor prev;
         signal_control := signal_control prev; green_time := green_time prev;
         yellow_time := yellow_time prev; red_time := red_time prev;
         simulation_duration := v |}
  end.

(** [setConfig((prev) => ({ ...prev, [field]: value }))]: a functional
    update, so two calls in one handler are applied one after the other. *)
Definition handleInputChange (field : Field) (value : FieldValue field)
  : ConfigForm -> ConfigForm :=
  setConfig (updateField field value).

(** [onChange] of the car and truck percentage sliders; [value] is
    [e.target.value]. *)
Definition onCarPercentageChange (value : string) : ConfigForm -> ConfigForm :=
  let carPct := parseInt value in
  handleInputChange F_car_percentage carPct ;;
  handleInputChange F_truck_percentage (100 - carPct)%float.

Definition onTruckPercentageChange (value : string) : ConfigForm -> ConfigForm :=
  let truckPct := parseInt value in
  handleInputChange F_truck_percentage truckPct ;;
  handleInputChange F_car_percentage (100 - truckPct)%float.

Definition handleTemplateChange (templates : list SimulationTemplate.t)
  (templateKey : string) : ConfigForm -> ConfigForm :=
  match find (fun t => String.eqb (SimulationTemplate.name t) templateKey) templates with
  | Some template =>
      let newConfig :=
        {| vehicles_per_hour := SimulationTemplate.vehicles_per_hour template;
           car_percentage := SimulationTemplate.car_percentage template;
           truck_percentage := SimulationTemplate.truck_percentage template;
           peak_hour_factor := SimulationTemplate.peak_hour_factor template;
           signal_control := SimulationTemplate.signal_control template;
           green_time := SimulationTemplate.green_time template;
           yellow_time := SimulationTemplate.yellow_time template;
           red_time := SimulationTemplate.red_time template;
           simulation_duration := 3600%float |} in
      setConfig (fun _ => newConfig) ;; setSelectedTemplate templateKey
  | None => fun s => s
  end.

Definition calculateCycleLength (config : SimulationConfig) : number :=
  (green_time config + yellow_time config + red_time config)%float.

Definition validateConfig (config : SimulationConfig) : bool :=
  (100 <=? vehicles_per_hour config)%float &&
  (vehicles_per_hour config <=? 5000)%float &&
  (car_percentage config + truck_percentage config =? 100)%float &&
  (1.0 <=? peak_hour_factor config)%float &&
  (peak_hour_factor config <=? 2.0)%float &&
  (0 <? green_time config)%float &&
  (0 <? yellow_time config)%float &&
  (0 <=? red_time config)%float.

(** ** components/simulation/MetricsDashboard.tsx *)

(** One entry of [historicalData]. *)
Record DataPoint := {
  dp_time : string;
  average_speed : number;
  queue_length : number;
  throughput : number;
  wait_time : number
}.

Record DashboardState := {
  historicalData : list DataPoint;
  updateCount : Z
}.

Definition initialDashboard : DashboardState :=
  {| historicalData := []; updateCount := 0 |}.

(** [Array.prototype.slice(start)]: a negative [start] counts from the end,
    and the start index is clamped to [0 .. length]. *)
Definition slice {A : Type} (start : Z) (l : list A) : list A :=
  let len := Z.of_nat (List.length l) in
  let k := if (start <? 0)%Z then Z.max (len + start) 0 else Z.min start len in
  skipn (Z.to_nat k) l.

(** The updater passed to [setHistoricalData]. *)
Definition appendDataPoint (newDataPoint : DataPoint) (prev : list DataPoint)
  : list DataPoint :=
  let newData := prev ++ [newDataPoint] in
  slice (-20) newData.

(** The callback of the dashboard's own one-second interval; [metrics] is
    the component's prop and [timestamp] is
    [new Date().toLocaleTimeString()]. *)
Definition dashboardInterval (metrics : SimulationMetrics) (timestamp : string)
  (d : DashboardState) : DashboardState :=
  let newDataPoint :=
    {| dp_time := timestamp;
       average_speed := average_speed_kmh metrics;
       queue_length := total_queue_length metrics;
       throughput := throughput_vehicles_per_hour metrics;
       wait_time := average_wait_time_seconds metrics |} in
  {| historicalData := appendDataPoint newDataPoint (historicalData d);
     updateCount := (updateCount d + 1)%Z |}.

(** ** pages/Simulation.tsx *)

(** The page's local state ([useState]). *)
Record PageState := {
  isRunning : bool;
  currentMetrics : SimulationMetrics
}.

Definition initialPage : PageState :=
  {| isRunning := false;
     currentMetrics := (mkMetrics 50.0 0.0 0.0 0.0)%float |}.

(** The browser's interval timers and the global
    [window.simulationInterval] that holds one handle.  Handles are positive
    integers, hence truthy. *)
Record WindowState := {
  simulationInterval : option positive;
  activeIntervals : list positive;
  nextHandle : positive
}.

Definition initialWindow : WindowState :=
  {| simulationInterval := None; activeIntervals := []; nextHandle := 1%positive |}.

(** The whole application: the context's store, and the local state of the
    page, of the configuration form and of the dashboard. *)
Record App := {
  store : SimulationState;
  page : PageState;
  form : ConfigForm;
  dashboard : DashboardState;
  window : WindowState
}.

Definition onStore (f : SimulationState -> SimulationState) (a : App) : App :=
  {| store := f (store a); page := page a; form := form a;
     dashboard := dashboard a; window := window a |}.

Definition onPage (f : PageState -> PageState) (a : App) : App :=
  {| store := store a; page := f (page a); form := form a;
     dashboard := dashboard a; window := window a |}.

Definition onForm (f : ConfigForm -> ConfigForm) (a : App) : App :=
  {| store := store a; page := page a; form := f (form a);
     dashboard := dashboard a; window := window a |}.

Definition onDashboard (f : DashboardState -> DashboardState) (a : App) : App :=
  {| store := store a; page := page a; form := form a;
     dashboard := f (dashboard a); window := window a |}.

Definition onWindow (f : WindowState -> WindowState) (a : App) : App :=
  {| store := store a; page := page a; form := form a;
     dashboard := dashboard a; window := f (window a) |}.

Definition setIsRunning (b : bool) (p : PageState) : PageState :=
  {| isRunning := b; currentMetrics := currentMetrics p |}.

Definition setCurrentMetrics (m : SimulationMetrics) (p : PageState) : PageState :=
  {| isRunning := isRunning p; currentMetrics := m |}.

(** [const interval = setInterval(...); window.simulationInterval = interval]:
    a fresh handle is activated and stored, overwriting the stored one. *)
Definition setSimulationInterval (w : WindowState) : WindowState :=
  {| simulationInterval := Some (nextHandle w);
     activeIntervals := nextHandle w :: activeIntervals w;
     nextHandle := Pos.succ (nextHandle w) |}.

(** [if (window.simulationInterval) { clearInterval(...); ... = null }] *)
Definition clearSimulationInterval (w : WindowState) : WindowState :=
  match simulationInterval w with
  | Some h =>
      {| simulationInterval := None;
         activeIntervals := filter (fun h' => negb (Pos.eqb h' h)) (activeIntervals w);
         nextHandle := nextHandle w |}
  | None => w
  end.

(** The sample built by the interval callback from four [Math.random()]
    draws, in the order the object literal evaluates them. *)
Definition newMetrics (r1 r2 r3 r4 : number) : SimulationMetrics :=
  mkMetrics (40 + r1 * 30)%float
            (r2 * 20)%float
            (r3 * 60)%float
            (800 + r4 * 1200)%float.

(** The callback of the interval installed by [handleStartSimulation]. *)
Definition metricsInterval (r1 r2 r3 r4 : number) : App -> App :=
  let m := newMetrics r1 r2 r3 r4 in
  onPage (setCurrentMetrics m) ;;
  onStore (updateMetrics m).

(** [handleStartSimulation]: neither [setIsRunning] nor [startSimulation]
    throws, so the [catch] branch is never taken. *)
Definition handleStartSimulation (config : SimulationConfig) (now : Z) : App -> App :=
  onPage (setIsRunning true) ;;
  onStore (startSimulation config now) ;;
  onWindow setSimulationInterval.

Definition handleStopSimulation : App -> App :=
  onWindow clearSimulationInterval ;;
  onStore stopSimulation ;;
  onPage (setIsRunning false) ;;
  (let resetMetrics := (mkMetrics 0.0 0.0 0.0 0.0)%float in
   onPage (setCurrentMetrics resetMetrics) ;;
   onStore (updateMetrics resetMetrics)).

Definition handleReset : App -> App :=
  onWindow clearSimulationInterval ;;
  onPage (setIsRunning false) ;;
  (let resetMetrics := (mkMetrics 50.0 0.0 0.0 0.0)%float in
   onPage (setCurrentMetrics resetMetrics) ;;
   onStore (updateMetrics resetMetrics)).

(** ** The configuration form inside the page *)

(** [handleStartSimulation] of the form: it saves the configuration in the
    store and calls the page's [onStartSimulation]. *)
Definition formHandleStartSimulation (now : Z) (a : App) : App :=
  let config := config (form a) in
  (onStore (setSimulationConfig config) ;; handleStartSimulation config now) a.

(** The [disabled] attribute of the start button. *)
Definition startDisabled (a : App) : bool :=
  negb (validateConfig (config (form a))) ||
  match roadNetwork (store a) with Some _ => false | None => true end.

(** A click where the form renders its button: the stop button while
    [isRunning], the start button otherwise.  A disabled button delivers no
    click to its handler. *)
Definition clickStart (now : Z) (a : App) : App :=
  if isRunning (page a) then a
  else if startDisabled a then a
  else formHandleStartSimulation now a.

Definition clickStop (a : App) : App :=
  if isRunning (page a) then handleStopSimulation a else a.

(** ** Events *)

Inductive Event :=
| StartClicked (now : Z)
| StopClicked
| ResetClicked
| MetricsTick (handle : positive) (r1 r2 r3 r4 : number)
| DashboardTick (timestamp : string)
| CarSliderChanged (value : string)
| TruckSliderChanged (value : string)
| InputChanged (field : Field) (value : FieldValue field)
| TemplateChanged (templateKey : string)
| AdvancedToggled.

(** [Math.random()] returns a number [r] with [0 <= r < 1]. *)
Definition isRandom (r : number) : bool := ((0 <=? r) && (r <? 1))%float.

(** What the event loop can deliver: a tick of an interval that is still
    active, with draws in range; a dashboard tick while [isRealTime]. *)
Definition enabled (e : Event) (a : App) : bool :=
  match e with
  | MetricsTick h r1 r2 r3 r4 =>
      existsb (Pos.eqb h) (activeIntervals (window a)) &&
      isRandom r1 && isRandom r2 && isRandom r3 && isRandom r4
  | DashboardTick _ => isRunning (page a)
  | _ => true
  end.

Definition handle (e : Event) : App -> App :=
  match e with
  | StartClicked now => clickStart now
  | StopClicked => clickStop
  | ResetClicked => handleReset
  | MetricsTick _ r1 r2 r3 r4 => metricsInterval r1 r2 r3 r4
  | DashboardTick timestamp =>
      fun a => onDashboard (dashboardInterval (currentMetrics (page a)) timestamp) a
  | CarSliderChanged value => onForm (onCarPercentageChange value)
  | TruckSliderChanged value => onForm (onTruckPercentageChange value)
  | InputChanged field value => onForm (handleInputChange field value)
  | TemplateChanged key =>
      fun a => onForm (handleTemplateChange (templates (store a)) key) a
  | AdvancedToggled =>
      onForm (fun f => setShowAdvanced (negb (showAdvanced f)) f)
  end.

(** The page is shown once a road network is in the store; the form loads
    the templates when it mounts. *)
Definition initialApp (network : RoadNetwork.t) : App :=
  {| store := (setRoadNetwork network ;; loadTemplates) initialState;
     page := initialPage;
     form := initialForm;
     dashboard := initialDashboard;
     window := initialWindow |}.

Inductive reachable (network : RoadNetwork.t) : App -> Prop :=
| reach_init : reachable network (initialApp network)
| reach_step (a : App) (e : Event) :
    reachable network a -> enabled e a = true -> reachable network (handle e a).

Definition run (events : list Event) (a : App) : App :=
  fold_left (fun a e => handle e a) events a.

(** Whether the event loop can deliver [events] one after the other. *)
Fixpoint deliverable (events : list Event) (a : App) : bool :=
  match events with
  | [] => true
  | e :: rest => enabled e a && deliverable rest (handle e a)
  end.

(** The session fields the properties speak about. *)
Definition sessionStatus (a : App) : option Status :=
  option_map status (currentSimulation (store a)).

Definition latestMetrics (a : App) : option SimulationMetrics :=
  match currentSimulation (store a) with
  | Some cur => metrics cur
  | None => None
  end.

(** ** pages/Upload.tsx: the road network stored after an upload *)

Definition mockRoadNetwork : RoadNetwork.t :=
  {| RoadNetwork.id := "network_001";
     RoadNetwork.segments :=
       [ {| RoadSegment.id := "seg_001";
            RoadSegment.start_point := (0, 0);
            RoadSegment.end_point := (100, 0);
            RoadSegment.length := 100;
            RoadSegment.width := 12;
            RoadSegment.road_type := "urban";
            RoadSegment.speed_limit := 50;
            RoadSegment.num_lanes := 2 |};
         {| RoadSegment.id := "seg_002";
            RoadSegment.start_point := (50, -50);
            RoadSegment.end_point := (50, 50);
            RoadSegment.length := 100;
            RoadSegment.width := 10;
            RoadSegment.road_type := "urban";
            RoadSegment.speed_limit := 40;
            RoadSegment.num_lanes := 2 |} ];
     RoadNetwork.intersections :=
       [ {| Intersection.id := "int_001";
            Intersection.center_point := (50, 0);
            Intersection.intersection_type := "four_way";
            Intersection.connected_segments := ["seg_001"; "seg_002"] |} ];
     RoadNetwork.lanes :=
       [ {| Lane.id := "lane_001"; Lane.road_segment_id := "seg_001";
            Lane.lane_number := 1;
            Lane.start_point := (0, 0); Lane.end_point := (100, 0);
            Lane.width := 6; Lane.direction := "forward" |};
         {| Lane.id := "lane_002"; Lane.road_segment_id := "seg_001";
            Lane.lane_number := 2;
            Lane.start_point := (0, 0); Lane.end_point := (100, 0);
            Lane.width := 6; Lane.direction := "forward" |};
         {| Lane.id := "lane_003"; Lane.road_segment_id := "seg_002";
            Lane.lane_number := 1;
            Lane.start_point := (50, -50); Lane.end_point := (50, 50);
            Lane.width := 5; Lane.direction := "forward" |};
         {| Lane.id := "lane_004"; Lane.road_segment_id := "seg_002";
            Lane.lane_number := 2;
            Lane.start_point := (50, -50); Lane.end_point := (50, 50);
            Lane.width := 5; Lane.direction := "forward" |} ];
     RoadNetwork.bounds := ((0, -50), (100, 50));
     RoadNetwork.metrics :=
       {| NetworkMetrics.total_length_km := 0.2;
          NetworkMetrics.total_lanes := 4;
          NetworkMetrics.avg_speed_limit_kmh := 45;
          NetworkMetrics.num_segments := 2;
          NetworkMetrics.num_intersections := 1 |} |}%float.

(** ** The validation predicate, as the specification words it *)

Definition num_le (x y : number) : Prop := (x <=? y)%float = true.
Definition num_lt (x y : number) : Prop := (x <? y)%float = true.
Definition num_eq (x y : number) : Prop := (x =? y)%float = true.

Definition ValidConfiguration (c : SimulationConfig) : Prop :=
  ((num_le 100 (vehicles_per_hour c) /\ num_le (vehicles_per_hour c) 5000) /\
   num_eq (car_percentage c + truck_percentage c) 100 /\
   (num_le 1.0 (peak_hour_factor c) /\ num_le (peak_hour_factor c) 2.0) /\
   num_lt 0 (green_time c) /\
   num_lt 0 (yellow_time c) /\
   num_le 0 (red_time c))%float.

(** The sample shown before any tick and restored by a reset, and the
    zeroed sample written by a stop. *)
Definition defaultSample : SimulationMetrics := (mkMetrics 50.0 0 0 0)%float.
Definition zeroSample : SimulationMetrics := (mkMetrics 0 0 0 0)%float.

(** The history after appending [pts] one by one to [h]. *)
Definition appendAll (pts : list DataPoint) (h : list DataPoint) : list DataPoint :=
  fold_left (fun h p => appendDataPoint p h) pts h.

(** The last [n] elements of a list. *)
Definition lastn {A : Type} (n : nat) (l : list A) : list A :=
  skipn (List.length l - n) l.

(** ** components/simulation/MetricsDashboard.tsx: status of a metric *)

(** The string union ["good" | "warning" | "critical"], and the two icons
    [getStatusIcon] chooses between. *)
Inductive StatusType := good | warning | critical.
Inductive StatusIconName := CheckCircle | AlertCircle.

Definition getStatusColor (value threshold : number) (type : StatusType) : string :=
  match type with
  | good =>
      if (threshold <=? value)%float then "text-green-600" else "text-yellow-600"
  | warning =>
      if (value <=? threshold)%float then "text-green-600" else "text-yellow-600"
  | critical =>
      if (value <=? threshold)%float then "text-green-600" else "text-red-600"
  end.

Definition getStatusIcon (value threshold : number) (type : StatusType) : StatusIconName :=
  match type with
  | good => if (threshold <=? value)%float then CheckCircle else AlertCircle
  | warning => if (value <=? threshold)%float then CheckCircle else AlertCircle
  | critical => if (value <=? threshold)%float then CheckCircle else AlertCircle
  end.

(** The three labels of the performance summary. *)
Definition speedPerformance (m : SimulationMetrics) : string :=
  if (40 <=? average_speed_kmh m)%float then "Good" else "Needs Attention".

Definition trafficFlow (m : SimulationMetrics) : string :=
  if (total_queue_length m <=? 10)%float then "Good" else "Congested".

Definition networkCapacity (m : SimulationMetrics) : string :=
  if (1000 <=? throughput_vehicles_per_hour m)%float then "Efficient" else "Low Capacity".

(** The entry of [historicalData] built from a sample. *)
Definition dataPointOf (m : SimulationMetrics) (timestamp : string) : DataPoint :=
  {| dp_time := timestamp;
     average_speed := average_speed_kmh m;
     queue_length := total_queue_length m;
     throughput := throughput_vehicles_per_hour m;
     wait_time := average_wait_time_seconds m |}.

(** ** components/simulation/SimulationConfig.tsx: reading a field *)

(** [config[field]] *)
Definition readField (field : Field) : SimulationConfig -> FieldValue field :=
  match field return SimulationConfig -> FieldValue field with
  | F_vehicles_per_hour => vehicles_per_hour
  | F_car_percentage => car_percentage
  | F_truck_percentage => truck_percentage
  | F_peak_hour_factor => peak_hour_factor
  | F_signal_control => signal_control
  | F_green_time => green_time
  | F_yellow_time => yellow_time
  | F_red_time => red_time
  | F_simulation_duration => simulation_duration
  end.

Definition Field_eqb (f g : Field) : bool :=
  match f, g with
  | F_vehicles_per_hour, F_vehicles_per_hour
  | F_car_percentage, F_car_percentage
  | F_truck_percentage, F_truck_percentage
  | F_peak_hour_factor, F_peak_hour_factor
  | F_signal_control, F_signal_control
  | F_green_time, F_green_time
  | F_yellow_time, F_yellow_time
  | F_red_time, F_red_time
  | F_simulation_duration, F_simulation_duration => true
  | _, _ => false
  end.

(** The configuration a template stands for. *)
Definition configOfTemplate (template : SimulationTemplate.t) : SimulationConfig :=
  {| vehicles_per_hour := SimulationTemplate.vehicles_per_hour template;
     car_percentage := SimulationTemplate.car_percentage template;
     truck_percentage := SimulationTemplate.truck_percentage template;
     peak_hour_factor := SimulationTemplate.peak_hour_factor template;
     signal_control := SimulationTemplate.signal_control template;
     green_time := SimulationTemplate.green_time template;
     yellow_time := SimulationTemplate.yellow_time template;
     red_time := SimulationTemplate.red_time template;
     simulation_duration := 3600%float |}.

(** The conjuncts of [validateConfig], one per group of fields. *)
Definition demandOk (vph : number) : bool := ((100 <=? vph) && (vph <=? 5000))%float.
Definition mixOk (car truck : number) : bool := (car + truck =? 100)%float.
Definition peakOk (phf : number) : bool := ((1.0 <=? phf) && (phf <=? 2.0))%float.
Definition greenOk (g : number) : bool := (0 <? g)%float.
Definition yellowOk (y : number) : bool := (0 <? y)%float.
Definition redOk (r : number) : bool := (0 <=? r)%float.

(** The integers [lo], [lo + 1], ..., [lo + n - 1]. *)
Definition Zrange (lo : Z) (n : nat) : list Z :=
  map (fun i => (lo + Z.of_nat i)%Z) (seq 0 n).

(** ** pages/Upload.tsx *)

Module Upload.

(** The fields of a DOM [File] that the page reads. *)
Record File := {
  name : string;
  type : string;
  size : number
}.

(** The page's local state ([useState]), the number of [FileReader]s that
    were started and have not delivered their result yet, and the number of
    uploads that are waiting for their two second delay to end. *)
Record State := {
  dragActive : bool;
  selectedFile : option File;
  preview : option string;
  uploading : bool;
  uploadSuccess : bool;
  error : option string;
  pendingReads : nat;
  uploadsInFlight : nat
}.

Definition initialState : State :=
  {| dragActive := false; selectedFile := None; preview := None;
     uploading := false; uploadSuccess := false; error := None;
     pendingReads := 0; uploadsInFlight := 0 |}.

Definition setDragActive (b : bool) (s : State) : State :=
  {| dragActive := b; selectedFile := selectedFile s; preview := preview s;
     uploading := uploading s; uploadSuccess := uploadSuccess s; error := error s;
     pendingReads := pendingReads s; uploadsInFlight := uploadsInFlight s |}.

Definition setSelectedFile (f : option File) (s : State) : State :=
  {| dragActive := dragActive s; selectedFile := f; preview := preview s;
     uploading := uploading s; uploadSuccess := uploadSuccess s; error := error s;
     pendingReads := pendingReads s; uploadsInFlight := uploadsInFlight s |}.

Definition setPreview (p : option string) (s : State) : State :=
  {| dragActive := dragActive s; selectedFile := selectedFile s; preview := p;
     uploading := uploading s; uploadSuccess := uploadSuccess s; error := error s;
     pendingReads := pendingReads s; uploadsInFlight := uploadsInFlight s |}.

Definition setUploading (b : bool) (s : State) : State :=
  {| dragActive := dragActive s; selectedFile := selectedFile s; preview := preview s;
     uploading := b; uploadSuccess := uploadSuccess s; error := error s;
     pendingReads := pendingReads s; uploadsInFlight := uploadsInFlight s |}.

Definition setUploadSuccess (b : bool) (s : State) : State :=
  {| dragActive := dragActive s; selectedFile := selectedFile s; preview := preview s;
     uploading := uploading s; uploadSuccess := b; error := error s;
     pendingReads := pendingReads s; uploadsInFlight := uploadsInFlight s |}.

Definition setError (e : option string) (s : State) : State :=
  {| dragActive := dragActive s; selectedFile := selectedFile s; preview := preview s;
     uploading := uploading s; uploadSuccess := uploadSuccess s; error := e;
     pendingReads := pendingReads s; uploadsInFlight := uploadsInFlight s |}.

(** [reader.readAsDataURL(file)]: one more result to come. *)
Definition readAsDataURL (s : State) : State :=
  {| dragActive := dragActive s; selectedFile := selectedFile s; preview := preview s;
     uploading := uploading s; uploadSuccess := uploadSuccess s; error := error s;
     pendingReads := S (pendingReads s); uploadsInFlight := uploadsInFlight s |}.

(** [reader.onload]: the result of one read becomes the preview. *)
Definition readerOnload (result : string) (s : State) : State :=
  {| dragActive := dragActive s; selectedFile := selectedFile s;
     preview := Some result;
     uploading := uploading s; uploadSuccess := uploadSuccess s; error := error s;
     pendingReads := Nat.pred (pendingReads s);
     uploadsInFlight := uploadsInFlight s |}.

Definition handleDrag (eventType : string) : State -> State :=
  if String.eqb eventType "dragenter" || String.eqb eventType "dragover"
  then setDragActive true
  else if String.eqb eventType "dragleave" then setDragActive false
  else fun s => s.

Definition handleFileSelect (file : File) : State -> State :=
  setError None ;;
  (if negb (String.prefix "image/" (type file))
   then setError (Some "Please select an image file (JPG, PNG, BMP)")
   else if (10 * 1024 * 1024 <? size file)%float
   then setError (Some "File size must be less than 10MB")
   else setSelectedFile (Some file) ;; readAsDataURL).

(** [files] is [e.dataTransfer.files], resp. [e.target.files]; the handlers
    look at its first element only. *)
Definition handleDrop (files : list File) : State -> State :=
  setDragActive false ;;
  match files with
  | file :: _ => handleFileSelect file
  | [] => fun s => s
  end.

Definition handleFileInput (files : list File) : State -> State :=
  match files with
  | file :: _ => handleFileSelect file
  | [] => fun s => s
  end.

Definition removeFile : State -> State :=
  setSelectedFile None ;; setPreview None ;; setError None.

Definition setUploadsInFlight (n : nat) (s : State) : State :=
  {| dragActive := dragActive s; selectedFile := selectedFile s; preview := preview s;
     uploading := uploading s; uploadSuccess := uploadSuccess s; error := error s;
     pendingReads := pendingReads s; uploadsInFlight := n |}.

(** [handleUpload] up to its [await]: without a selected file it returns at
    once; otherwise it raises the uploading flag, clears the error and
    waits for the two second delay. *)
Definition handleUploadBegin (s : State) : State :=
  match selectedFile s with
  | None => s
  | Some _ =>
      (setUploading true ;; setError None ;;
       (fun s => setUploadsInFlight (S (uploadsInFlight s)) s)) s
  end.

(** [handleUpload] after its [await], on the page's state and the context's
    store: the delay always resolves, so the [catch] branch is never taken;
    the later redirect changes neither state. *)
Definition handleUploadEnd (p : State * SimulationState) : State * SimulationState :=
  ((setUploadSuccess true ;; setUploading false ;;
    (fun s => setUploadsInFlight (Nat.pred (uploadsInFlight s)) s)) (fst p),
   setRoadNetwork mockRoadNetwork (snd p)).

(** The whole of [handleUpload], when nothing happens during the delay. *)
Definition handleUpload (p : State * SimulationState) : State * SimulationState :=
  match selectedFile (fst p) with
  | None => p
  | Some _ => handleUploadEnd (handleUploadBegin (fst p), snd p)
  end.

(** What the page can receive.  The file input is rendered while no file is
    selected; the remove and upload buttons while one is, the upload button
    being disabled while [uploading]. *)
Inductive Event :=
| Dragged (eventType : string)
| Dropped (files : list File)
| FileChosen (files : list File)
| RemoveClicked
| UploadClicked
| UploadResolved
| PreviewLoaded (result : string).

Definition enabled (e : Event) (p : State * SimulationState) : bool :=
  match e with
  | FileChosen _ => match selectedFile (fst p) with None => true | Some _ => false end
  | RemoveClicked => match selectedFile (fst p) with None => false | Some _ => true end
  | UploadClicked =>
      match selectedFile (fst p) with None => false | Some _ => negb (uploading (fst p)) end
  | UploadResolved => negb (Nat.eqb (uploadsInFlight (fst p)) 0)
  | PreviewLoaded _ => negb (Nat.eqb (pendingReads (fst p)) 0)
  | _ => true
  end.

Definition handle (e : Event) (p : State * SimulationState) : State * SimulationState :=
  match e with
  | Dragged eventType => (handleDrag eventType (fst p), snd p)
  | Dropped files => (handleDrop files (fst p), snd p)
  | FileChosen files => (handleFileInput files (fst p), snd p)
  | RemoveClicked => (removeFile (fst p), snd p)
  | UploadClicked => (handleUploadBegin (fst p), snd p)
  | UploadResolved => handleUploadEnd p
  | PreviewLoaded result => (readerOnload result (fst p), snd p)
  end.

(** The states reached from a freshly mounted page over a store [store0]. *)
Inductive reachable (store0 : SimulationState) : State * SimulationState -> Prop :=
| reach_init : reachable store0 (initialState, store0)
| reach_step (p : State * SimulationState) (e : Event) :
    reachable store0 p -> enabled e p = true -> reachable store0 (handle e p).

(** A file the page accepts: an image of at most ten mebibytes. *)
Definition acceptable (file : File) : bool :=
  String.prefix "image/" (type file) && negb (10 * 1024 * 1024 <? size file)%float.

End Upload.

(** What the upload page keeps true of its state and of the store it was
    mounted over. *)
Definition uploadConsistent (store0 : SimulationState)
  (p : Upload.State * SimulationState) : Prop :=
  (forall f : Upload.File,
      Upload.selectedFile (fst p) = Some f -> Upload.acceptable f = true)
  /\ with_roadNetwork (roadNetwork store0) (snd p) = store0
  /\ (if Upload.uploadSuccess (fst p)
      then roadNetwork (snd p) = Some mockRoadNetwork
      else roadNetwork (snd p) = roadNetwork store0)
  /\ Upload.uploading (fst p) = negb (Nat.eqb (Upload.uploadsInFlight (fst p)) 0)
  /\ (Upload.uploadsInFlight (fst p) <= 1)%nat.

(** ** pages/Simulation.tsx: a stop with its delay

    [handleStopSimulation] waits one second inside [stopSimulation].  Its
    two halves, before and after that wait, are separate steps of the event
    loop, and other events can be delivered in between. *)

(** Up to the [await]: the interval is cleared and the store is loading. *)
Definition stopBegin : App -> App :=
  onWindow clearSimulationInterval ;;
  onStore (dispatch (SET_LOADING true)).

(** After the [await]: the session is stopped, then the page is updated. *)
Definition stopEnd : App -> App :=
  onStore (dispatch STOP_SIMULATION ;; dispatch (SET_LOADING false)) ;;
  onPage (setIsRunning false) ;;
  (let resetMetrics := (mkMetrics 0.0 0.0 0.0 0.0)%float in
   onPage (setCurrentMetrics resetMetrics) ;;
   onStore (updateMetrics resetMetrics)).

(** The application together with the number of stops that are waiting. *)
Record AsyncApp := {
  app : App;
  stopsInFlight : nat
}.

Inductive AsyncEvent :=
| Delivered (e : Event)
| StopResolved.

Definition asyncEnabled (e : AsyncEvent) (x : AsyncApp) : bool :=
  match e with
  | Delivered e => enabled e (app x)
  | StopResolved => negb (Nat.eqb (stopsInFlight x) 0)
  end.

Definition asyncHandle (e : AsyncEvent) (x : AsyncApp) : AsyncApp :=
  match e with
  | Delivered StopClicked =>
      if isRunning (page (app x))
      then {| app := stopBegin (app x); stopsInFlight := S (stopsInFlight x) |}
      else x
  | Delivered e => {| app := handle e (app x); stopsInFlight := stopsInFlight x |}
  | StopResolved =>
      {| app := stopEnd (app x); stopsInFlight := Nat.pred (stopsInFlight x) |}
  end.

Inductive asyncReachable (network : RoadNetwork.t) : AsyncApp -> Prop :=
| async_init :
    asyncReachable network {| app := initialApp network; stopsInFlight := 0 |}
| async_step (x : AsyncApp) (e : AsyncEvent) :
    asyncReachable network x -> asyncEnabled e x = true ->
    asyncReachable network (asyncHandle e x).

Definition asyncRun (events : list AsyncEvent) (x : AsyncApp) : AsyncApp :=
  fold_left (fun x e => asyncHandle e x) events x.

Fixpoint asyncDeliverable (events : list AsyncEvent) (x : AsyncApp) : bool :=
  match events with
  | [] => true
  | e :: rest => asyncEnabled e x && asyncDeliverable rest (asyncHandle e x)
  end.

(** A stop, then a reset and a start while the stop is waiting, then the
    end of the stop. *)
Definition stopResetStart (now : Z) : list AsyncEvent :=
  [Delivered StopClicked; Delivered ResetClicked; Delivered (StartClicked now);
   StopResolved].

(** What holds of the store however the steps interleave. *)
Definition storeShape (network : RoadNetwork.t) (a : App) : Prop :=
  roadNetwork (store a) = Some network
  /\ templates (store a) = mockTemplates
  /\ error (store a) = None
  /\ (sessionStatus a = None \/ sessionStatus a = Some Running
      \/ sessionStatus a = Some Completed)
  /\ (List.length (historicalData (dashboard a)) <= 20)%nat.

(** A photo of 2 MB. *)
Definition photo : Upload.File :=
  {| Upload.name := "junction.png"; Upload.type := "image/png";
     Upload.size := 2000000%float |}.

(** ** Invariants of the simulation page *)

(** The browser holds exactly the interval whose handle is stored, and one
    is stored exactly while the page says it is running. *)
Definition timersConsistent (a : App) : Prop :=
  activeIntervals (window a)
  = match simulationInterval (window a) with Some h => [h] | None => [] end
  /\ (isRunning (page a) = true <-> simulationInterval (window a) <> None).

(** What the page's events keep true of the store. *)
Definition storeConsistent (network : RoadNetwork.t) (a : App) : Prop :=
  roadNetwork (store a) = Some network
  /\ templates (store a) = mockTemplates
  /\ isLoading (store a) = false
  /\ error (store a) = None
  /\ match currentSimulation (store a) with
     | None => isRunning (page a) = false /\ simulationConfig (store a) = None
     | Some cur =>
         (status cur = Running \/ status cur = Completed)
         /\ (isRunning (page a) = true -> status cur = Running)
         /\ simulationConfig (store a) <> None
     end.

Definition isTick (e : Event) : bool :=
  match e with
  | MetricsTick _ _ _ _ _ | DashboardTick _ => true
  | _ => false
  end.

Definition isFormEvent (e : Event) : bool :=
  match e with
  | CarSliderChanged _ | TruckSliderChanged _ | InputChanged _ _
  | TemplateChanged _ | AdvancedToggled => true
  | _ => false
  end.



(** ** Rounding to binary64, for the bounds on samples *)

(** The record reached from [(m, false, false)] after [k] one-bit shifts:
    twice [m] is split into the kept bits, the round bit and the rest. *)
Definition shr_inv (m : Z) (k : Z) (mrs : shr_record) : Prop :=
  (0 <= shr_m mrs /\
   exists u : Z,
     2 * m = (2 * shr_m mrs + Z.b2z (shr_r mrs)) * 2 ^ k + u
     /\ 0 <= u < 2 ^ k
     /\ (shr_s mrs = false <-> u = 0))%Z.

(** The outcome of rounding a positive exact value [M * 2^E]: a mantissa
    below [2^53] at an exponent [e3], normal unless [e3] is the least
    exponent, and within half a unit of [2^e3] of the exact value. *)
Definition rounds_to (M : positive) (E : Z) (m3 e3 : Z) : Prop :=
  (0 <= m3 < 2 ^ 53
   /\ (2 ^ 52 <= m3 \/ e3 = -1074)
   /\ -1074 <= e3
   /\ E <= e3
   /\ - 2 ^ (e3 - E) <= 2 * Zpos M - 2 * m3 * 2 ^ (e3 - E) <= 2 ^ (e3 - E))%Z.

Definition round_result (m3 e3 : Z) : spec_float :=
  match m3 with
  | Z0 => S754_zero false
  | Zpos m => if (e3 <=? emax - prec)%Z then S754_finite false m e3 else S754_infinity false
  | Zneg _ => S754_nan
  end.

(** [s] is a zero or a positive finite float no greater than [b * 2^eb]. *)
Definition at_most (s : spec_float) (b : positive) (eb : Z) : Prop :=
  (exists sign : bool, s = S754_zero sign)
  \/ exists (m : positive) (e : Z),
       s = S754_finite false m e
       /\ (Zpos m < 2 ^ 53)%Z
       /\ (e < eb \/ (e = eb /\ Zpos m <= Zpos b))%Z.

(** [s] is [+infinity] or a positive finite float no less than [b * 2^eb]. *)
Definition at_least (s : spec_float) (b : positive) (eb : Z) : Prop :=
  s = S754_infinity false
  \/ exists (m : positive) (e : Z),
       s = S754_finite false m e
       /\ (Zpos m < 2 ^ 53)%Z
       /\ (eb < e \/ (e = eb /\ Zpos b <= Zpos m))%Z.

(** A valid float [s] with [0 <= s < 1]. *)
Definition unit_interval (s : spec_float) : Prop :=
  valid_binary s = true
  /\ SFleb (S754_zero false) s = true
  /\ SFltb s (S754_finite false 4503599627370496 (-52)) = true.

(** The largest number below 1, [1 - 2^-53]. *)
Definition largestDraw : number := 0x1.fffffffffffffp-1%float.

(** * Properties *)

(** ** The store *)

Lemma stop_reducer_idempotent (s : SimulationState) :
  simulationReducer (simulationReducer s STOP_SIMULATION) STOP_SIMULATION
  = simulationReducer s STOP_SIMULATION.
Proof.
  destruct s as [cur net cfg tpl ld err]; destruct cur as [c|]; reflexivity.
Qed.

Lemma stopSimulation_idempotent (s : SimulationState) :
  stopSimulation (stopSimulation s) = stopSimulation s.
Proof.
  destruct s as [cur net cfg tpl ld err]; destruct cur as [c|]; reflexivity.
Qed.

Lemma clearSimulationInterval_idempotent (w : WindowState) :
  clearSimulationInterval (clearSimulationInterval w) = clearSimulationInterval w.
Proof.
  destruct w as [[h|] act nxt]; reflexivity.
Qed.

Lemma handleStopSimulation_idempotent (a : App) :
  handleStopSimulation (handleStopSimulation a) = handleStopSimulation a.
Proof.
  destruct a as [s p f d w].
  destruct s as [cur net cfg tpl ld err]; destruct w as [[h|] act nxt];
    destruct cur as [c|]; reflexivity.
Qed.

(** C9. Whatever the store holds and whatever the configuration,
    [startSimulation(config)] leaves a current session whose status is
    ["running"] and which carries no metrics (the session record is created
    anew, so metrics of an earlier session are gone), and the stored
    configuration is [config]. *)
Theorem startSimulation_creates_running_session
  (s : SimulationState) (config : SimulationConfig) (now : Z) :
  currentSimulation (startSimulation config now s)
  = Some {| simulation_id := "sim_" ++ string_of_Z now;
            status := Running;
            message := "Simulation started successfully";
            metrics := None |}
  /\ option_map status (currentSimulation (startSimulation config now s)) = Some Running
  /\ option_map metrics (currentSimulation (startSimulation config now s)) = Some None
  /\ simulationConfig (startSimulation config now s) = Some config.
Proof.
  repeat split; reflexivity.
Qed.

(** C6. Stopping twice is stopping once: for the reducer's
    [STOP_SIMULATION] case, for the store's [stopSimulation] and for the
    page's [handleStopSimulation], a second application changes nothing. *)
Theorem stop_is_idempotent :
  (forall s : SimulationState,
      dispatch STOP_SIMULATION (dispatch STOP_SIMULATION s) = dispatch STOP_SIMULATION s)
  /\ (forall s : SimulationState, stopSimulation (stopSimulation s) = stopSimulation s)
  /\ (forall a : App, handleStopSimulation (handleStopSimulation a) = handleStopSimulation a).
Proof.
  split; [| split].
  - exact stop_reducer_idempotent.
  - exact stopSimulation_idempotent.
  - exact handleStopSimulation_idempotent.
Qed.

(** C7. With no current session, stopping is a no-op that reports no
    error: the reducer returns the state it was given, and after
    [stopSimulation] (and after the page's [handleStopSimulation]) there is
    still no session and the store's [error] field is what it was. *)
Theorem stop_without_session_is_noop (s : SimulationState) :
  currentSimulation s = None ->
  dispatch STOP_SIMULATION s = s
  /\ currentSimulation (stopSimulation s) = None
  /\ error (stopSimulation s) = error s
  /\ with_isLoading (isLoading s) (stopSimulation s) = s
  /\ (forall a : App, store a = s ->
        currentSimulation (store (handleStopSimulation a)) = None
        /\ error (store (handleStopSimulation a)) = error s).
Proof.
  intros Hnone.
  destruct s as [cur net cfg tpl ld err]; simpl in Hnone; subst cur.
  repeat split; try reflexivity;
    destruct a as [s p f d w]; simpl in *; subst s; reflexivity.
Qed.

Lemma stop_without_session_is_noop_witness :
  currentSimulation initialState = None
  /\ dispatch STOP_SIMULATION initialState = initialState.
Proof.
  split; [reflexivity |].
  exact (proj1 (stop_without_session_is_noop initialState eq_refl)).
Defined.

(** ** Validation and the start button *)

Lemma validateConfig_spec (c : SimulationConfig) :
  validateConfig c = true <-> ValidConfiguration c.
Proof.
  unfold validateConfig, ValidConfiguration, num_le, num_lt, num_eq.
  rewrite !andb_true_iff. tauto.
Qed.

Lemma clickStart_disabled (a : App) (now : Z) :
  startDisabled a = true -> clickStart now a = a.
Proof.
  intros Hd. unfold clickStart. rewrite Hd. destruct (isRunning (page a)); reflexivity.
Qed.

Lemma mix_not_100_invalid (c : SimulationConfig) :
  (car_percentage c + truck_percentage c =? 100)%float = false ->
  validateConfig c = false.
Proof.
  intros Hmix. unfold validateConfig. rewrite Hmix.
  rewrite !andb_false_r. reflexivity.
Qed.

(** C5. [validateConfig] returns [true] exactly when the configuration
    satisfies [100 <= vehicles_per_hour <= 5000],
    [car_percentage + truck_percentage == 100],
    [1.0 <= peak_hour_factor <= 2.0], [green_time > 0], [yellow_time > 0] and
    [red_time >= 0], the comparisons and the sum being those of numbers. *)
Theorem validateConfig_iff_valid (c : SimulationConfig) :
  validateConfig c = true <-> ValidConfiguration c.
Proof.
  exact (validateConfig_spec c).
Qed.

(** C1. When the vehicle mix does not sum to 100, or any other part of the
    validation predicate fails, a click on the start button reaches no
    handler: the application state, and with it the session and its status,
    is exactly what it was, so the store's [startSimulation] has not run and
    the status has not become ["running"]. *)
Theorem invalid_config_never_starts (a : App) (now : Z) :
  (car_percentage (config (form a)) + truck_percentage (config (form a)) =? 100)%float
    = false
  \/ ~ ValidConfiguration (config (form a)) ->
  handle (StartClicked now) a = a
  /\ sessionStatus (handle (StartClicked now) a) = sessionStatus a
  /\ (sessionStatus a <> Some Running ->
      sessionStatus (handle (StartClicked now) a) <> Some Running).
Proof.
  intros Hbad.
  assert (Hinv : validateConfig (config (form a)) = false).
  { destruct Hbad as [Hmix | Hnot].
    - now apply mix_not_100_invalid.
    - destruct (validateConfig (config (form a))) eqn:E; [| reflexivity].
      exfalso. apply Hnot. now apply validateConfig_spec. }
  assert (Hsame : handle (StartClicked now) a = a).
  { simpl. apply clickStart_disabled. unfold startDisabled. now rewrite Hinv. }
  rewrite Hsame. repeat split; auto.
Qed.

(** A form whose mix is 80 + 30, on the page right after an upload. *)
Definition unbalancedApp : App :=
  onForm (handleInputChange F_truck_percentage 30%float) (initialApp mockRoadNetwork).

Lemma invalid_config_never_starts_witness :
  handle (StartClicked 1700000000000) unbalancedApp = unbalancedApp
  /\ sessionStatus (handle (StartClicked 1700000000000) unbalancedApp) = None.
Proof.
  destruct (invalid_config_never_starts unbalancedApp 1700000000000) as (H1 & H2 & _).
  - left. vm_compute. reflexivity.
  - split; [exact H1 | rewrite H2; reflexivity].
Defined.

(** ** Start followed by stop *)

Lemma start_then_stop_session (a : App) (config : SimulationConfig) (now : Z) :
  currentSimulation (store (handleStopSimulation (handleStartSimulation config now a)))
  = Some {| simulation_id := "sim_" ++ string_of_Z now;
            status := Completed;
            message := "Simulation completed";
            metrics := Some zeroSample |}.
Proof.
  destruct a as [s p f d w]. reflexivity.
Qed.

(** C3. With a configuration that passes validation, a click on start
    followed at once by a click on stop (no tick in between) leaves the
    session with status ["completed"] and with metrics equal to the sample
    whose four fields are zero. *)
Theorem start_then_stop_completed (a : App) (now : Z) :
  ValidConfiguration (config (form a)) ->
  roadNetwork (store a) <> None ->
  isRunning (page a) = false ->
  let a' := handle StopClicked (handle (StartClicked now) a) in
  sessionStatus a' = Some Completed
  /\ latestMetrics a' = Some zeroSample
  /\ a' = handleStopSimulation
            (handleStartSimulation (config (form a)) now
               (onStore (setSimulationConfig (config (form a))) a)).
Proof.
  intros Hvalid Hnet Hidle.
  apply validateConfig_spec in Hvalid.
  assert (Hstart : handle (StartClicked now) a = formHandleStartSimulation now a).
  { simpl. unfold clickStart, startDisabled. rewrite Hidle, Hvalid.
    destruct (roadNetwork (store a)); [reflexivity | congruence]. }
  cbv zeta. rewrite Hstart.
  assert (Hstop : handle StopClicked (formHandleStartSimulation now a)
                  = handleStopSimulation (formHandleStartSimulation now a)).
  { destruct a as [s p f d w]. reflexivity. }
  rewrite Hstop. unfold formHandleStartSimulation, andThen.
  unfold sessionStatus, latestMetrics.
  rewrite start_then_stop_session. repeat split.
Qed.

Lemma start_then_stop_completed_witness :
  sessionStatus
    (handle StopClicked (handle (StartClicked 1700000000000) (initialApp mockRoadNetwork)))
  = Some Completed
  /\ latestMetrics
       (handle StopClicked (handle (StartClicked 1700000000000) (initialApp mockRoadNetwork)))
     = Some zeroSample.
Proof.
  destruct (start_then_stop_completed (initialApp mockRoadNetwork) 1700000000000)
    as (H1 & H2 & _).
  - apply validateConfig_spec. vm_compute. reflexivity.
  - discriminate.
  - reflexivity.
  - split; [exact H1 | exact H2].
Defined.

(** ** The history buffer *)

Lemma slice_neg_lastn {A : Type} (n : nat) (l : list A) :
  (0 < n)%nat -> slice (- Z.of_nat n) l = lastn n l.
Proof.
  intros Hn. unfold slice, lastn.
  destruct (Z.ltb_spec (- Z.of_nat n) 0) as [Hneg | Hzero]; [| lia].
  f_equal. lia.
Qed.

Lemma appendDataPoint_lastn (p : DataPoint) (prev : list DataPoint) :
  appendDataPoint p prev = lastn 20 (prev ++ [p]).
Proof.
  unfold appendDataPoint. apply (slice_neg_lastn 20 (prev ++ [p])). lia.
Qed.

Lemma lastn_length {A : Type} (n : nat) (l : list A) :
  List.length (lastn n l) = Nat.min n (List.length l).
Proof.
  unfold lastn. rewrite length_skipn. lia.
Qed.

Lemma lastn_all {A : Type} (n : nat) (l : list A) :
  (List.length l <= n)%nat -> lastn n l = l.
Proof.
  intros Hle. unfold lastn. replace (List.length l - n)%nat with 0%nat by lia.
  reflexivity.
Qed.

Lemma lastn_app_lastn {A : Type} (n : nat) (a b : list A) :
  lastn n (lastn n a ++ b) = lastn n (a ++ b).
Proof.
  destruct (Nat.le_gt_cases (List.length a) n) as [Hle | Hgt].
  - rewrite (lastn_all n a Hle). reflexivity.
  - unfold lastn at 1 3. rewrite !length_app.
    fold (lastn n a). rewrite lastn_length.
    rewrite !skipn_app. unfold lastn. rewrite skipn_skipn, length_skipn.
    f_equal; f_equal; lia.
Qed.

Lemma appendAll_lastn (pts h : list DataPoint) :
  (List.length h <= 20)%nat -> appendAll pts h = lastn 20 (h ++ pts).
Proof.
  revert h. induction pts as [| p pts IH]; intros h Hh.
  - simpl. rewrite app_nil_r. symmetry. now apply lastn_all.
  - simpl. fold (appendAll pts (appendDataPoint p h)).
    rewrite IH.
    + rewrite appendDataPoint_lastn, lastn_app_lastn, <- app_assoc. reflexivity.
    + rewrite appendDataPoint_lastn, lastn_length. lia.
Qed.

(** C2. The history never holds more than 20 entries, whatever it held
    before an append and however many entries are appended; appending to an
    empty history keeps exactly the last 20 appended entries in the order of
    insertion, so the oldest go first; and after 25 appends the history is
    the 25 entries without the first 5. *)
Theorem history_bounded_fifo (pts : list DataPoint) :
  List.length pts = 25%nat ->
  appendAll pts [] = skipn 5 pts
  /\ List.length (appendAll pts []) = 20%nat
  /\ (forall (p : DataPoint) (prev : list DataPoint),
        (List.length (appendDataPoint p prev) <= 20)%nat)
  /\ (forall (more h : list DataPoint),
        (List.length h <= 20)%nat ->
        (List.length (appendAll more h) <= 20)%nat
        /\ appendAll more h = lastn 20 (h ++ more)).
Proof.
  intros Hlen.
  assert (Hall : appendAll pts [] = skipn 5 pts).
  { rewrite appendAll_lastn by (simpl; lia). simpl. unfold lastn. now rewrite Hlen. }
  split; [exact Hall |]. split.
  - rewrite Hall, length_skipn. lia.
  - split.
    + intros p prev. rewrite appendDataPoint_lastn, lastn_length. lia.
    + intros more h Hh. rewrite appendAll_lastn by exact Hh.
      split; [rewrite lastn_length; lia | reflexivity].
Qed.

(** Twenty-five samples, numbered by their time stamp. *)
Definition numberedPoint (i : nat) : DataPoint :=
  {| dp_time := string_of_Z (Z.of_nat i);
     average_speed := 50; queue_length := 0; throughput := 0; wait_time := 0 |}%float.

Lemma history_bounded_fifo_witness :
  appendAll (map numberedPoint (seq 1 25)) [] = map numberedPoint (seq 6 20).
Proof.
  exact (proj1 (history_bounded_fifo (map numberedPoint (seq 1 25)) eq_refl)).
Defined.

(** ** Reset *)

Lemma clearSimulationInterval_none (w : WindowState) :
  simulationInterval (clearSimulationInterval w) = None.
Proof.
  unfold clearSimulationInterval.
  destruct (simulationInterval w) eqn:E; [reflexivity | exact E].
Qed.

Lemma handleReset_effect (a : App) :
  handleReset a
  = {| store := updateMetrics defaultSample (store a);
       page := {| isRunning := false; currentMetrics := defaultSample |};
       form := form a;
       dashboard := dashboard a;
       window := clearSimulationInterval (window a) |}.
Proof.
  destruct a as [s p f d w]. reflexivity.
Qed.

(** The page after a start, one metrics tick and one dashboard tick. *)
Definition runningApp : App :=
  run [ StartClicked 1700000000000;
        MetricsTick 1 0.5 0.5 0.5 0.5;
        DashboardTick "10:00:01" ]%float
      (initialApp mockRoadNetwork).

Lemma run_reachable (network : RoadNetwork.t) (events : list Event) (a : App) :
  reachable network a -> deliverable events a = true ->
  reachable network (run events a).
Proof.
  revert a. induction events as [| e events IH]; intros a Ha Hd.
  - exact Ha.
  - simpl in Hd. apply andb_true_iff in Hd. destruct Hd as [He Hd].
    apply (IH (handle e a)); [now apply reach_step | exact Hd].
Qed.

Lemma runningApp_reachable : reachable mockRoadNetwork runningApp.
Proof.
  apply run_reachable; [apply reach_init | vm_compute; reflexivity].
Qed.

(** C4, as stated, fails: in a reachable state with a running session, a
    reset leaves the session's status ["running"] and leaves the history as
    it was. *)
Lemma reset_not_idle_history_kept :
  ~ (forall a : App,
       reachable mockRoadNetwork a ->
       sessionStatus a = Some Running ->
       sessionStatus (handleReset a) = Some Idle
       /\ historicalData (dashboard (handleReset a)) = []
       /\ latestMetrics (handleReset a) = Some defaultSample
       /\ sessionStatus (handleReset a) <> Some Completed).
Proof.
  intros Hclaim.
  destruct (Hclaim runningApp runningApp_reachable eq_refl) as (Hidle & _).
  vm_compute in Hidle. discriminate Hidle.
Qed.

(** C4, amended. In every state with a running session, a reset clears the
    page's running flag and the stored interval handle, and sets both the
    displayed metrics and the session's metrics to the default sample
    (speed 50, the rest 0); the session's status stays ["running"] (it
    becomes neither ["idle"] nor ["completed"]) and the history is left as
    it was. *)
Theorem reset_restores_default_metrics (a : App) :
  sessionStatus a = Some Running ->
  isRunning (page (handleReset a)) = false
  /\ simulationInterval (window (handleReset a)) = None
  /\ currentMetrics (page (handleReset a)) = defaultSample
  /\ latestMetrics (handleReset a) = Some defaultSample
  /\ sessionStatus (handleReset a) = Some Running
  /\ historicalData (dashboard (handleReset a)) = historicalData (dashboard a).
Proof.
  intros Hrun. rewrite handleReset_effect.
  unfold sessionStatus, latestMetrics in *. simpl.
  destruct (currentSimulation (store a)) as [cur |]; [| discriminate].
  simpl in *. repeat split; try assumption.
  apply clearSimulationInterval_none.
Qed.

Lemma reset_restores_default_metrics_witness :
  sessionStatus (handleReset runningApp) = Some Running
  /\ latestMetrics (handleReset runningApp) = Some defaultSample
  /\ List.length (historicalData (dashboard (handleReset runningApp))) = 1%nat.
Proof.
  destruct (reset_restores_default_metrics runningApp eq_refl)
    as (_ & _ & _ & Hm & Hs & Hh).
  split; [exact Hs |]. split; [exact Hm |]. rewrite Hh. reflexivity.
Defined.

(** ** The vehicle mix sliders *)

Lemma onCarPercentageChange_config (value : string) (f : ConfigForm) :
  config (onCarPercentageChange value f)
  = updateField F_truck_percentage (100 - parseInt value)%float
      (updateField F_car_percentage (parseInt value) (config f)).
Proof. reflexivity. Qed.

Lemma onTruckPercentageChange_config (value : string) (f : ConfigForm) :
  config (onTruckPercentageChange value f)
  = updateField F_car_percentage (100 - parseInt value)%float
      (updateField F_truck_percentage (parseInt value) (config f)).
Proof. reflexivity. Qed.

(** What the slider's handlers compute from the decimal text of an integer
    between 0 and 100. *)
Lemma percent_numbers (v : Z) :
  (0 <= v <= 100)%Z ->
  parseInt (string_of_Z v) = Z2F v
  /\ (100 - Z2F v)%float = Z2F (100 - v)
  /\ (Z2F v + Z2F (100 - v) =? 100)%float = true
  /\ (Z2F (100 - v) + Z2F v =? 100)%float = true.
Proof.
  intros Hv.
  assert (Hn : exists n : nat, v = Z.of_nat n /\ (n <= 100)%nat).
  { exists (Z.to_nat v). lia. }
  destruct Hn as (n & -> & Hn).
  do 101 (destruct n as [| n];
          [ repeat split; vm_compute; reflexivity | ]).
  lia.
Qed.

(** C10. After an edit of either mix slider to an integer [v] between 0
    and 100, the edited percentage is [v], the other one is [100 - v], their
    sum is 100, and no other field of the configuration has changed. *)
Theorem sliders_keep_mix_100 (f : ConfigForm) (v : Z) :
  (0 <= v <= 100)%Z ->
  let c := config f in
  let cc := config (onCarPercentageChange (string_of_Z v) f) in
  let ct := config (onTruckPercentageChange (string_of_Z v) f) in
  (car_percentage cc = Z2F v
   /\ truck_percentage cc = Z2F (100 - v)
   /\ (car_percentage cc + truck_percentage cc =? 100)%float = true
   /\ cc = updateField F_truck_percentage (Z2F (100 - v))
             (updateField F_car_percentage (Z2F v) c))
  /\ (truck_percentage ct = Z2F v
      /\ car_percentage ct = Z2F (100 - v)
      /\ (car_percentage ct + truck_percentage ct =? 100)%float = true
      /\ ct = updateField F_car_percentage (Z2F (100 - v))
                (updateField F_truck_percentage (Z2F v) c)).
Proof.
  intros Hv. cbv zeta.
  rewrite onCarPercentageChange_config, onTruckPercentageChange_config.
  destruct (percent_numbers v Hv) as (Hp & Hsub & Hsum & Hsum').
  rewrite Hp, Hsub. simpl.
  repeat split; assumption.
Qed.

Lemma sliders_keep_mix_100_witness :
  car_percentage (config (onCarPercentageChange "35" initialForm)) = 35%float
  /\ truck_percentage (config (onCarPercentageChange "35" initialForm)) = 65%float.
Proof.
  destruct (sliders_keep_mix_100 initialForm 35 ltac:(lia)) as ((H1 & H2 & _) & _).
  split; [exact H1 | exact H2].
Defined.

(** ** Rounding to binary64

    The sampler's arithmetic is binary64 arithmetic.  Its products and sums
    are specified by [SFmul] and [SFadd], which round the exact result with
    [binary_round_aux]; this section bounds what that rounding returns. *)

Section Rounding.
Local Open Scope Z_scope.


Lemma digits2_pos_bounds (p : positive) :
  2 ^ (Zpos (digits2_pos p) - 1) <= Zpos p < 2 ^ Zpos (digits2_pos p).
Proof.
  induction p as [p IH | p IH |]; simpl digits2_pos.
  - rewrite Pos2Z.inj_succ.
    replace (Z.succ (Zpos (digits2_pos p)) - 1) with (Z.succ (Zpos (digits2_pos p) - 1)) by lia.
    rewrite !Z.pow_succ_r by lia. lia.
  - rewrite Pos2Z.inj_succ.
    replace (Z.succ (Zpos (digits2_pos p)) - 1) with (Z.succ (Zpos (digits2_pos p) - 1)) by lia.
    rewrite !Z.pow_succ_r by lia. lia.
  - simpl. lia.
Qed.

Lemma digits2_pos_unique (p : positive) (n : Z) :
  2 ^ (n - 1) <= Zpos p < 2 ^ n -> Zpos (digits2_pos p) = n.
Proof.
  intros [Hlo Hhi].
  pose proof (digits2_pos_bounds p) as [Dlo Dhi].
  set (d := Zpos (digits2_pos p)) in *.
  assert (0 < d) by (unfold d; lia).
  assert (0 < n).
  { destruct (Z.lt_ge_cases 0 n) as [|Hn]; [assumption|].
    assert (2 ^ n <= 2 ^ 0) by (destruct (Z.eq_dec n 0) as [->|]; [lia| rewrite Z.pow_neg_r by lia; simpl; lia]).
    simpl in *. lia. }
  destruct (Z.lt_trichotomy d n) as [Hlt | [Heq | Hgt]]; [| exact Heq |].
  - assert (2 ^ d <= 2 ^ (n - 1)) by (apply Z.pow_le_mono_r; lia). lia.
  - assert (2 ^ n <= 2 ^ (d - 1)) by (apply Z.pow_le_mono_r; lia). lia.
Qed.

Lemma iter_pos_nat {A : Type} (f : A -> A) (p : positive) (x : A) :
  iter_pos f p x = Nat.iter (Pos.to_nat p) f x.
Proof.
  revert x. induction p as [p IH | p IH |]; intros x; simpl iter_pos.
  - rewrite !IH, Pos2Nat.inj_xI.
    replace (S (2 * Pos.to_nat p)) with (Pos.to_nat p + S (Pos.to_nat p))%nat by lia.
    rewrite Nat.iter_add, Nat.iter_succ_r. reflexivity.
  - rewrite !IH, Pos2Nat.inj_xO.
    replace (2 * Pos.to_nat p)%nat with (Pos.to_nat p + Pos.to_nat p)%nat by lia.
    rewrite Nat.iter_add. reflexivity.
  - reflexivity.
Qed.

Lemma shr_inv_init (m : Z) : 0 <= m -> shr_inv m 0 {| shr_m := m; shr_r := false; shr_s := false |}.
Proof.
  intros Hm. split; [exact Hm |]. exists 0. simpl. repeat split; lia.
Qed.

Lemma shr_1_m (mrs : shr_record) :
  0 <= shr_m mrs ->
  shr_m mrs = 2 * shr_m (shr_1 mrs) + Z.b2z (shr_r (shr_1 mrs))
  /\ 0 <= shr_m (shr_1 mrs)
  /\ shr_s (shr_1 mrs) = shr_r mrs || shr_s mrs.
Proof.
  destruct mrs as [m r s]. simpl. intros Hm.
  destruct m as [| [p | p |] | p]; simpl; repeat split; lia.
Qed.

Lemma shr_inv_step (m k : Z) (mrs : shr_record) :
  0 <= k -> shr_inv m k mrs -> shr_inv m (k + 1) (shr_1 mrs).
Proof.
  intros Hk (Hq & u & Hsum & Hu & Hs).
  destruct (shr_1_m mrs Hq) as (Hm1 & Hq1 & Hs1).
  split; [exact Hq1 |].
  exists (Z.b2z (shr_r mrs) * 2 ^ k + u).
  rewrite Z.pow_add_r by lia. change (2 ^ 1) with 2.
  assert (0 < 2 ^ k) by (apply Z.pow_pos_nonneg; lia).
  split; [rewrite Hsum, Hm1; ring |].
  split.
  - destruct (shr_r mrs); unfold Z.b2z; lia.
  - rewrite Hs1.
    destruct (shr_r mrs), (shr_s mrs); unfold Z.b2z, orb; split; intros Hx;
      try discriminate; try reflexivity; lia.
Qed.

Lemma shr_inv_iter (m : Z) (n : nat) (mrs : shr_record) (k : Z) :
  0 <= k -> shr_inv m k mrs -> shr_inv m (k + Z.of_nat n) (Nat.iter n shr_1 mrs).
Proof.
  intros Hk Hinv. induction n as [| n IH].
  - simpl. now rewrite Z.add_0_r.
  - rewrite Nat2Z.inj_succ. simpl Nat.iter.
    replace (k + Z.succ (Z.of_nat n)) with (k + Z.of_nat n + 1) by lia.
    apply shr_inv_step; [lia | exact IH].
Qed.

Lemma shr_exact_inv (m e n : Z) :
  0 <= m -> 0 <= n ->
  exists mrs, shr {| shr_m := m; shr_r := false; shr_s := false |} e n = (mrs, e + n)
              /\ shr_inv m n mrs.
Proof.
  intros Hm Hn. destruct n as [| p | p]; [| | lia].
  - eexists. split; [simpl; rewrite Z.add_0_r; reflexivity |]. now apply shr_inv_init.
  - eexists. split; [reflexivity |]. rewrite iter_pos_nat.
    replace (Zpos p) with (0 + Z.of_nat (Pos.to_nat p)) by lia.
    apply shr_inv_iter; [lia | now apply shr_inv_init].
Qed.

(** Rounding to nearest moves at most half a unit of the kept bits. *)
Lemma round_nearest_even_inv (m k : Z) (mrs : shr_record) :
  0 <= k -> shr_inv m k mrs ->
  let m' := round_nearest_even (shr_m mrs) (loc_of_shr_record mrs) in
  shr_m mrs <= m' <= shr_m mrs + 1
  /\ shr_m mrs * 2 ^ k <= m < (shr_m mrs + 1) * 2 ^ k
  /\ - 2 ^ k <= 2 * m - 2 * m' * 2 ^ k <= 2 ^ k.
Proof.
  intros Hk (Hq & u & Hsum & Hu & Hs). cbv zeta.
  assert (HP : 0 < 2 ^ k) by (apply Z.pow_pos_nonneg; lia).
  destruct mrs as [q r s]. cbn [shr_m shr_r shr_s] in *.
  set (P := 2 ^ k) in *. clearbody P.
  assert (Hu0 : s = false -> u = 0) by apply Hs.
  assert (Hu1 : s = true -> u <> 0).
  { intros -> ->. destruct Hs as [_ Hs]. specialize (Hs eq_refl). discriminate. }
  clear Hs.
  destruct r, s; cbn [loc_of_shr_record round_nearest_even Z.b2z] in *;
    try specialize (Hu0 eq_refl); try specialize (Hu1 eq_refl);
    try destruct (Z.even q); nia.
Qed.

Lemma shr_nonpos (mrs : shr_record) (e n : Z) : n <= 0 -> shr mrs e n = (mrs, e).
Proof. destruct n; [reflexivity | lia | reflexivity]. Qed.

Lemma fexp64 (e : Z) : fexp prec emax e = Z.max (e - 53) (-1074).
Proof. reflexivity. Qed.

Lemma binary_round_aux_spec (M : positive) (E : Z) :
  E <= fexp prec emax (Zpos (digits2_pos M) + E) ->
  exists m3 e3 : Z,
    binary_round_aux prec emax false (Zpos M) E loc_Exact = round_result m3 e3
    /\ rounds_to M E m3 e3.
Proof.
  intros HE. unfold binary_round_aux, shr_fexp.
  cbn [Zdigits2 shr_record_of_loc].
  pose proof (digits2_pos_bounds M) as [Dlo Dhi].
  set (d := Zpos (digits2_pos M)) in *.
  assert (Hd : 0 < d) by (unfold d; lia).
  rewrite fexp64 in *.
  set (e1 := Z.max (d + E - 53) (-1074)) in *.
  set (k := e1 - E).
  assert (Hk : 0 <= k) by (unfold k; lia).
  destruct (shr_exact_inv (Zpos M) E k ltac:(lia) Hk) as (mrs & Hshr & Hinv).
  rewrite Hshr. replace (E + k) with e1 by (unfold k; lia).
  pose proof (round_nearest_even_inv (Zpos M) k mrs Hk Hinv) as Hr. cbv zeta in Hr.
  set (m2 := round_nearest_even (shr_m mrs) (loc_of_shr_record mrs)) in *.
  destruct Hr as (Hm2 & Hq & Herr).
  destruct Hinv as (Hq0 & _).
  set (q := shr_m mrs) in *.
  assert (HP : 0 < 2 ^ k) by (apply Z.pow_pos_nonneg; lia).
  assert (Hqhi : q < 2 ^ 53).
  { assert (2 ^ d <= 2 ^ (53 + k)) by (apply Z.pow_le_mono_r; unfold k, e1; lia).
    rewrite Z.pow_add_r in H by lia. nia. }
  assert (Hqlo : 2 ^ 52 <= q \/ e1 = -1074).
  { destruct (Z.eq_dec e1 (-1074)) as [He | He]; [right; exact He | left].
    assert (d - 1 = 52 + k) by (unfold k, e1 in *; lia).
    rewrite H, Z.pow_add_r in Dlo by lia. nia. }
  destruct (Z.eq_dec m2 0) as [Hz | Hnz].
  - (* rounded to zero *)
    rewrite Hz. cbn [Zdigits2]. rewrite shr_nonpos by (rewrite fexp64; unfold e1; lia).
    cbn [shr_m]. exists 0, e1. split; [reflexivity |].
    unfold rounds_to. fold k. rewrite Hz in Herr.
    repeat split; lia.
  - destruct (Z.eq_dec m2 (2 ^ 53)) as [Hc | Hnc].
    + (* the mantissa carried into the next binade *)
      rewrite Hc. change (Zdigits2 (2 ^ 53)) with 54.
      rewrite fexp64.
      assert (He1 : -1074 <= e1) by (unfold e1; lia).
      replace (Z.max (54 + e1 - 53) (-1074) - e1) with 1 by lia.
      cbn [shr iter_pos shr_1 shr_m]. exists (2 ^ 52), (e1 + 1).
      split; [reflexivity |].
      unfold rounds_to. replace (e1 + 1 - E) with (k + 1) by (unfold k; lia).
      rewrite Z.pow_add_r by lia. rewrite Hc in Herr.
      change (2 ^ 53) with (2 * 2 ^ 52) in Herr. change (2 ^ 1) with 2.
      repeat split; lia.
    + (* a mantissa of at most 53 bits: the second alignment does nothing *)
      assert (Hm2pos : 0 < m2 < 2 ^ 53).
      { change (2 ^ 53) with 9007199254740992 in *. lia. }
      destruct m2 as [| p | p] eqn:Em2; try lia.
      cbn [Zdigits2].
      pose proof (digits2_pos_bounds p) as [Plo Phi].
      assert (Hd2 : Zpos (digits2_pos p) <= 53).
      { destruct (Z.le_gt_cases (Zpos (digits2_pos p)) 53) as [|Hgt]; [assumption |].
        assert (2 ^ 53 <= 2 ^ (Zpos (digits2_pos p) - 1)) by (apply Z.pow_le_mono_r; lia).
        lia. }
      assert (Hnorm : 2 ^ 52 <= Zpos p \/ e1 = -1074).
      { destruct Hqlo as [Hq52 | He]; [left; lia | right; exact He]. }
      assert (Hfix : Z.max (Zpos (digits2_pos p) + e1 - 53) (-1074) - e1 <= 0).
      { destruct Hnorm as [Hn | He].
        - assert (Zpos (digits2_pos p) = 53) by (apply digits2_pos_unique; change (53 - 1) with 52; lia).
          unfold e1 in *. lia.
        - lia. }
      rewrite shr_nonpos by (rewrite fexp64; exact Hfix).
      cbn [shr_m]. exists (Zpos p), e1. split; [reflexivity |].
      unfold rounds_to. fold k.
      assert (He1 : -1074 <= e1) by (unfold e1; lia).
      repeat split; try lia; assumption.
Qed.

Lemma pow2_split (a b : Z) : 0 <= a -> 0 <= b -> 2 ^ (a + b) = 2 ^ a * 2 ^ b /\ 0 < 2 ^ a /\ 0 < 2 ^ b.
Proof.
  intros Ha Hb. rewrite Z.pow_add_r by lia.
  repeat split; try reflexivity; apply Z.pow_pos_nonneg; lia.
Qed.

Lemma pow2_ge_2 (t : Z) : 1 <= t -> 2 <= 2 ^ t.
Proof.
  intros Ht. change 2 with (2 ^ 1) at 1. apply Z.pow_le_mono_r; lia.
Qed.

(** An exact value below the midpoint above [b * 2^eb] rounds to at most
    [b * 2^eb]. *)
Lemma round_at_most (M : positive) (E m3 e3 : Z) (b : positive) (eb : Z) :
  rounds_to M E m3 e3 ->
  Zpos b <= 2 ^ 53 - 2 -> -1074 <= eb <= 971 -> E < eb ->
  Zpos M < (2 * Zpos b + 1) * 2 ^ (eb - 1 - E) ->
  at_most (round_result m3 e3) b eb.
Proof.
  intros (Hm3 & Hnorm & Hemin & HE & Herr) Hb Heb HEb HM.
  set (D := eb - 1 - E) in *.
  assert (HD : 0 <= D) by (unfold D; lia).
  assert (HP : 0 < 2 ^ D) by (apply Z.pow_pos_nonneg; lia).
  set (P := 2 ^ D) in *.
  change (2 ^ 53) with 9007199254740992 in *.
  change (2 ^ 52) with 4503599627370496 in *.
  assert (Hle : e3 <= eb).
  { destruct (Z.le_gt_cases e3 eb) as [| Hgt]; [assumption | exfalso].
    set (t := e3 - eb).
    replace (e3 - E) with ((D + 1) + t) in Herr by (unfold D, t; lia).
    destruct (pow2_split (D + 1) t ltac:(lia) ltac:(unfold t; lia)) as (Hs & _ & _).
    destruct (pow2_split D 1 ltac:(lia) ltac:(lia)) as (Hs1 & _ & _).
    rewrite Hs, Hs1 in Herr. fold P in Herr. change (2 ^ 1) with 2 in Herr.
    pose proof (pow2_ge_2 t ltac:(unfold t; lia)) as Ht.
    set (Q := 2 ^ t) in *. clearbody Q P.
    assert (4503599627370496 <= m3) by lia.
    assert (HR : 2 * P <= P * Q) by nia.
    set (R := P * Q) in *.
    replace (P * 2 * Q) with (2 * R) in Herr by (unfold R; ring).
    assert (m3 * R >= 4503599627370496 * R) by nia.
    assert (Zpos b * P <= 9007199254740990 * P) by nia.
    nia. }
  destruct m3 as [| m | m]; [left; exists false; reflexivity | | lia].
  right. exists m, e3. cbn [round_result].
  replace (e3 <=? emax - prec) with true
    by (symmetry; apply Z.leb_le; change (emax - prec) with 971; lia).
  split; [reflexivity |]. split; [lia |].
  destruct (Z.eq_dec e3 eb) as [Heq | Hne]; [right | left; lia].
  split; [exact Heq |].
  replace (e3 - E) with (D + 1) in Herr by (unfold D; lia).
  destruct (pow2_split D 1 ltac:(lia) ltac:(lia)) as (Hs1 & _ & _).
  rewrite Hs1 in Herr. fold P in Herr. change (2 ^ 1) with 2 in Herr.
  clearbody P. nia.
Qed.

(** An exact value of at least [b * 2^eb] rounds to at least [b * 2^eb]. *)
Lemma round_at_least (M : positive) (E m3 e3 : Z) (b : positive) (eb : Z) :
  rounds_to M E m3 e3 ->
  2 ^ 52 <= Zpos b -> -1074 <= eb -> E <= eb ->
  Zpos b * 2 ^ (eb - E) <= Zpos M ->
  at_least (round_result m3 e3) b eb.
Proof.
  intros (Hm3 & Hnorm & Hemin & HE & Herr) Hb Heb HEb HM.
  change (2 ^ 53) with 9007199254740992 in *.
  change (2 ^ 52) with 4503599627370496 in *.
  assert (Hj : 0 < 2 ^ (e3 - E)) by (apply Z.pow_pos_nonneg; lia).
  assert (Hge : eb <= e3).
  { destruct (Z.le_gt_cases eb e3) as [| Hlt]; [assumption | exfalso].
    set (t := eb - e3).
    replace (eb - E) with ((e3 - E) + t) in HM by (unfold t; lia).
    destruct (pow2_split (e3 - E) t ltac:(lia) ltac:(unfold t; lia)) as (Hs & _ & _).
    rewrite Hs in HM.
    pose proof (pow2_ge_2 t ltac:(unfold t; lia)) as Ht.
    set (Q := 2 ^ t) in *. set (J := 2 ^ (e3 - E)) in *. clearbody Q J.
    assert (m3 * J <= 9007199254740991 * J) by nia.
    assert (Zpos b * (J * Q) >= 4503599627370496 * (2 * J)) by nia.
    nia. }
  assert (Hpos : 0 < m3).
  { destruct (Z.eq_dec m3 0) as [Hz | Hnz]; [exfalso | lia].
    subst m3. destruct Hnorm as [Hn | He]; [lia |].
    assert (eb = e3) by lia. subst eb.
    set (J := 2 ^ (e3 - E)) in *. clearbody J. nia. }
  destruct m3 as [| m | m]; try lia.
  cbn [round_result].
  destruct (e3 <=? emax - prec); [right | left; reflexivity].
  exists m, e3. split; [reflexivity |]. split; [lia |].
  destruct (Z.eq_dec e3 eb) as [Heq | Hne]; [right | left; lia].
  split; [exact Heq |]. subst e3.
  set (J := 2 ^ (eb - E)) in *. clearbody J. nia.
Qed.

Lemma at_most_leb (s : spec_float) (b : positive) (eb : Z) :
  at_most s b eb -> SFleb s (S754_finite false b eb) = true.
Proof.
  intros [[sign ->] | (m & e & -> & _ & Hle)]; [reflexivity |].
  unfold SFleb, SFcompare.
  destruct Hle as [Hlt | [-> Hm]].
  - rewrite (proj2 (Z.compare_lt_iff e eb) Hlt). reflexivity.
  - rewrite Z.compare_refl. fold (Pos.compare m b).
    destruct (Pos.compare_spec m b) as [| |Hgt]; try reflexivity. lia.
Qed.

Lemma at_most_ltb (s : spec_float) (b : positive) (eb : Z) (b' : positive) (eb' : Z) :
  at_most s b eb ->
  eb < eb' \/ (eb = eb' /\ Zpos b < Zpos b') ->
  SFltb s (S754_finite false b' eb') = true.
Proof.
  intros [[sign ->] | (m & e & -> & _ & Hle)] Hb; [reflexivity |].
  unfold SFltb, SFcompare.
  destruct (Z.compare_spec e eb') as [Heq | Hlt | Hgt]; [| reflexivity | lia].
  fold (Pos.compare m b').
  destruct (Pos.compare_spec m b') as [| |Hgt]; try reflexivity; lia.
Qed.

Lemma at_least_leb (s : spec_float) (b : positive) (eb : Z) :
  at_least s b eb -> SFleb (S754_finite false b eb) s = true.
Proof.
  intros [-> | (m & e & -> & _ & Hle)]; [reflexivity |].
  unfold SFleb, SFcompare.
  destruct Hle as [Hlt | [-> Hm]].
  - rewrite (proj2 (Z.compare_lt_iff eb e) Hlt). reflexivity.
  - rewrite Z.compare_refl. fold (Pos.compare b m).
    destruct (Pos.compare_spec b m) as [| |Hgt]; try reflexivity. lia.
Qed.

Lemma at_most_nonneg (s : spec_float) (b : positive) (eb : Z) :
  at_most s b eb -> SFleb (S754_zero false) s = true.
Proof.
  intros [[sign ->] | (m & e & -> & _)]; reflexivity.
Qed.

Lemma digits2_pos_normal (p : positive) : 2 ^ 52 <= Zpos p -> 53 <= Zpos (digits2_pos p).
Proof.
  intros Hp. pose proof (digits2_pos_bounds p) as [_ Hhi].
  destruct (Z.le_gt_cases 53 (Zpos (digits2_pos p))) as [| Hlt]; [assumption | exfalso].
  assert (2 ^ Zpos (digits2_pos p) <= 2 ^ 52) by (apply Z.pow_le_mono_r; lia).
  lia.
Qed.

Lemma iter_xO (p d : positive) : Zpos (Pos.iter xO p d) = Zpos p * 2 ^ Zpos d.
Proof.
  induction d as [| d IH] using Pos.peano_ind.
  - simpl. lia.
  - rewrite Pos.iter_succ, Pos2Z.inj_succ, Z.pow_succ_r by lia.
    rewrite Pos2Z.inj_xO, IH. ring.
Qed.

Lemma shl_align_fst (mx : positive) (ex ez : Z) :
  ez <= ex -> Zpos (fst (shl_align mx ex ez)) = Zpos mx * 2 ^ (ex - ez).
Proof.
  intros Hle. unfold shl_align.
  destruct (ez - ex) as [| d | d] eqn:Ed; try lia.
  - replace (ex - ez) with 0 by lia. simpl. lia.
  - simpl fst. rewrite iter_xO. f_equal. f_equal. lia.
Qed.

Lemma shl_align_id (mx : positive) (ex ex' : Z) :
  ex <= ex' -> shl_align mx ex ex' = (mx, ex).
Proof.
  intros Hle. unfold shl_align. destruct (ex' - ex) eqn:Ed; try reflexivity. lia.
Qed.

(** The product of two positive floats, the second one normal, is the
    rounding of the exact product. *)
Lemma SFmul_pos_spec (mx : positive) (ex : Z) (my : positive) (ey : Z) :
  2 ^ 52 <= Zpos my ->
  exists m3 e3 : Z,
    SFmul prec emax (S754_finite false mx ex) (S754_finite false my ey) = round_result m3 e3
    /\ rounds_to (mx * my) (ex + ey) m3 e3.
Proof.
  intros Hy. cbn [SFmul xorb].
  apply binary_round_aux_spec.
  rewrite fexp64.
  assert (53 <= Zpos (digits2_pos (mx * my))).
  { apply digits2_pos_normal. rewrite Pos2Z.inj_mul. nia. }
  lia.
Qed.

(** The sum of two positive floats, the first one normal, is the rounding
    of the exact sum written at the smaller exponent. *)
Lemma SFadd_pos_spec (mx : positive) (ex : Z) (my : positive) (ey : Z) :
  2 ^ 52 <= Zpos mx ->
  exists (M : positive) (m3 e3 : Z),
    Zpos M = Zpos mx * 2 ^ (ex - Z.min ex ey) + Zpos my * 2 ^ (ey - Z.min ex ey)
    /\ SFadd prec emax (S754_finite false mx ex) (S754_finite false my ey) = round_result m3 e3
    /\ rounds_to M (Z.min ex ey) m3 e3.
Proof.
  intros Hx. cbn [SFadd cond_Zopp].
  set (ez := Z.min ex ey).
  set (ax := fst (shl_align mx ex ez)). set (ay := fst (shl_align my ey ez)).
  assert (Hax : Zpos ax = Zpos mx * 2 ^ (ex - ez)) by (apply shl_align_fst; unfold ez; lia).
  assert (Hay : Zpos ay = Zpos my * 2 ^ (ey - ez)) by (apply shl_align_fst; unfold ez; lia).
  exists (ax + ay)%positive.
  change (Zpos ax + Zpos ay) with (Zpos (ax + ay)).
  cbn [binary_normalize]. unfold binary_round.
  assert (Hdig : 53 <= Zpos (digits2_pos (ax + ay))).
  { apply digits2_pos_normal. rewrite Pos2Z.inj_add, Hax.
    assert (1 <= 2 ^ (ex - ez)) by (apply (Z.pow_le_mono_r 2 0); unfold ez; lia).
    nia. }
  rewrite shl_align_id by (rewrite fexp64; lia).
  destruct (binary_round_aux_spec (ax + ay) ez) as (m3 & e3 & Hr & Hto).
  { rewrite fexp64. lia. }
  exists m3, e3. split; [| split; [exact Hr | exact Hto]].
  rewrite Pos2Z.inj_add, Hax, Hay. reflexivity.
Qed.

Lemma SFltb_finite (m : positive) (e : Z) (b : positive) (eb : Z) :
  SFltb (S754_finite false m e) (S754_finite false b eb) = true ->
  e < eb \/ (e = eb /\ Zpos m < Zpos b).
Proof.
  unfold SFltb, SFcompare. intros H.
  destruct (Z.compare_spec e eb) as [Heq | Hlt | Hgt]; [right | left; exact Hlt | discriminate].
  split; [exact Heq |].
  fold (Pos.compare m b) in H.
  destruct (Pos.compare_spec m b) as [| Hlt |]; try discriminate. lia.
Qed.

Lemma unit_interval_cases (s : spec_float) :
  unit_interval s ->
  (exists b : bool, s = S754_zero b)
  \/ (exists (m : positive) (e : Z),
        s = S754_finite false m e /\ Zpos m < 2 ^ 53 /\ e <= -53).
Proof.
  intros (Hv & H0 & H1).
  destruct s as [b | b | | b m e]; try discriminate.
  - left. now exists b.
  - destruct b; discriminate.
  - destruct b; [discriminate |]. right. exists m, e. split; [reflexivity |].
    cbn [valid_binary] in Hv. unfold bounded, canonical_mantissa in Hv.
    apply andb_true_iff in Hv. destruct Hv as [Hc _].
    apply Z.eqb_eq in Hc. rewrite fexp64 in Hc.
    pose proof (digits2_pos_bounds m) as [Dlo Dhi].
    set (d := Zpos (digits2_pos m)) in *.
    assert (Hd53 : d <= 53) by lia.
    split.
    + assert (2 ^ d <= 2 ^ 53) by (apply Z.pow_le_mono_r; lia). lia.
    + apply SFltb_finite in H1. destruct H1 as [Hlt | [Heq Hm]]; [lia | exfalso].
      assert (d = 53) by lia.
      assert (2 ^ (d - 1) = 4503599627370496) by (rewrite H; reflexivity).
      lia.
Qed.

(** A number of [[0, 1)] times a normal constant that is not a power of two
    stays below the constant: the product is at most the float just under
    it. *)
Lemma SFmul_unit_below (s : spec_float) (mc b : positive) (ec : Z) :
  unit_interval s ->
  2 ^ 52 < Zpos mc < 2 ^ 53 -> Zpos b + 1 = Zpos mc -> -1074 <= ec <= 971 ->
  at_most (SFmul prec emax s (S754_finite false mc ec)) b ec.
Proof.
  intros Hs Hmc Hb Hec.
  destruct (unit_interval_cases s Hs) as [[sign ->] | (m & e & -> & Hm & He)].
  - left. exists (xorb sign false). reflexivity.
  - destruct (SFmul_pos_spec m e mc ec ltac:(lia)) as (m3 & e3 & -> & Hto).
    apply (round_at_most (m * mc) (e + ec)); try lia; try exact Hto.
    replace (ec - 1 - (e + ec)) with (52 + (- 53 - e)) by lia.
    destruct (pow2_split 52 (- 53 - e) ltac:(lia) ltac:(lia)) as (-> & _ & HQ).
    rewrite Pos2Z.inj_mul.
    change (2 ^ 53) with 9007199254740992 in *.
    change (2 ^ 52) with 4503599627370496 in *.
    set (Q := 2 ^ (- 53 - e)) in *. clearbody Q.
    assert (Zpos m * Zpos mc <= 9007199254740991 * Zpos mc) by nia.
    assert ((2 * Zpos b + 1) * 4503599627370496 <= (2 * Zpos b + 1) * (4503599627370496 * Q)) by nia.
    nia.
Qed.

Lemma at_most_cases (y : spec_float) (b : positive) (eb : Z) :
  at_most y b eb ->
  (exists sign : bool, y = S754_zero sign)
  \/ exists (my : positive) (ey : Z),
       y = S754_finite false my ey /\ Zpos my < 2 ^ 53
       /\ (ey < eb \/ (ey = eb /\ Zpos my <= Zpos b)).
Proof. exact (fun H => H). Qed.

(** [40 + y] for [0 <= y <= 30] lies between 40 and 70. *)
Lemma speed_bounds (y : spec_float) :
  at_most y 8444249301319680 (-48) ->
  at_least (SFadd prec emax (S754_finite false 5629499534213120 (-47)) y)
           5629499534213120 (-47)
  /\ at_most (SFadd prec emax (S754_finite false 5629499534213120 (-47)) y)
             4925812092436480 (-46).
Proof.
  intros [[sign ->] | (my & ey & -> & Hmy & Hle)].
  - cbn [SFadd]. split.
    + right. exists 5629499534213120%positive, (-47). repeat split; lia.
    + right. exists 5629499534213120%positive, (-47). repeat split; lia.
  - destruct (SFadd_pos_spec 5629499534213120 (-47) my ey ltac:(lia))
      as (M & m3 & e3 & HM & -> & Hto).
    assert (Hey : ey <= -48) by lia.
    rewrite Z.min_r in * by lia.
    replace (ey - ey) with 0 in HM by lia. change (2 ^ 0) with 1 in HM.
    replace (-47 - ey) with ((-48 - ey) + 1) in HM by lia.
    destruct (pow2_split (-48 - ey) 1 ltac:(lia) ltac:(lia)) as (HP2 & HP & _).
    rewrite HP2 in HM. change (2 ^ 1) with 2 in HM.
    change (2 ^ 53) with 9007199254740992 in *.
    assert (Hval : Zpos my <= 8444249301319680 * 2 ^ (-48 - ey)).
    { destruct Hle as [Hlt | [Heq Hm]].
      - pose proof (pow2_ge_2 (-48 - ey) ltac:(lia)). nia.
      - replace (-48 - ey) with 0 by lia. change (2 ^ 0) with 1. lia. }
    split.
    + apply (round_at_least M ey); try lia; try exact Hto.
      replace (-47 - ey) with ((-48 - ey) + 1) by lia. rewrite HP2. change (2 ^ 1) with 2.
      lia.
    + apply (round_at_most M ey); try lia; try exact Hto.
      replace (-46 - 1 - ey) with ((-48 - ey) + 1) by lia. rewrite HP2. change (2 ^ 1) with 2.
      set (P := 2 ^ (-48 - ey)) in *. clearbody P. lia.
Qed.

(** [800 + y] for [0 <= y < 1200] lies between 800 and the float just
    under 2000. *)
Lemma throughput_bounds (y : spec_float) :
  at_most y 5277655813324799 (-42) ->
  at_least (SFadd prec emax (S754_finite false 7036874417766400 (-43)) y)
           7036874417766400 (-43)
  /\ at_most (SFadd prec emax (S754_finite false 7036874417766400 (-43)) y)
             8796093022207999 (-42).
Proof.
  intros [[sign ->] | (my & ey & -> & Hmy & Hle)].
  - cbn [SFadd]. split.
    + right. exists 7036874417766400%positive, (-43). repeat split; lia.
    + right. exists 7036874417766400%positive, (-43). repeat split; lia.
  - destruct (SFadd_pos_spec 7036874417766400 (-43) my ey ltac:(lia))
      as (M & m3 & e3 & HM & -> & Hto).
    change (2 ^ 53) with 9007199254740992 in *.
    destruct (Z.eq_dec ey (-42)) as [-> | Hne].
    + (* the summand is in the binade of 1200 *)
      change (Z.min (-43) (-42)) with (-43) in *.
      change (2 ^ (-43 - -43)) with 1 in HM. change (2 ^ (-42 - -43)) with 2 in HM.
      assert (Zpos my <= 5277655813324799) by lia.
      split.
      * apply (round_at_least M (-43)); try lia; exact Hto.
      * apply (round_at_most M (-43)); try lia; exact Hto.
    + assert (Hey : ey <= -43) by lia.
      rewrite Z.min_r in * by lia.
      replace (ey - ey) with 0 in HM by lia. change (2 ^ 0) with 1 in HM.
      assert (HP : 0 < 2 ^ (-43 - ey)) by (apply Z.pow_pos_nonneg; lia).
      split.
      * apply (round_at_least M ey); try lia; try exact Hto.
      * apply (round_at_most M ey); try lia; try exact Hto.
        replace (-42 - 1 - ey) with (-43 - ey) by lia.
        set (P := 2 ^ (-43 - ey)) in *. clearbody P. nia.
Qed.

End Rounding.

(** ** The sampler's ranges *)

Section SamplerRanges.
Local Open Scope float_scope.

Lemma Prim2SF_consts :
  Prim2SF 0 = S754_zero false
  /\ Prim2SF 1 = S754_finite false 4503599627370496 (-52)
  /\ Prim2SF 20 = S754_finite false 5629499534213120 (-48)
  /\ Prim2SF 30 = S754_finite false 8444249301319680 (-48)
  /\ Prim2SF 40 = S754_finite false 5629499534213120 (-47)
  /\ Prim2SF 60 = S754_finite false 8444249301319680 (-47)
  /\ Prim2SF 70 = S754_finite false 4925812092436480 (-46)
  /\ Prim2SF 800 = S754_finite false 7036874417766400 (-43)
  /\ Prim2SF 1200 = S754_finite false 5277655813324800 (-42)
  /\ Prim2SF 2000 = S754_finite false 8796093022208000 (-42).
Proof. repeat split; vm_compute; reflexivity. Qed.

Lemma isRandom_unit_interval (r : float) :
  isRandom r = true -> unit_interval (Prim2SF r).
Proof.
  unfold isRandom. intros H. apply andb_true_iff in H. destruct H as [H0 H1].
  rewrite leb_spec in H0. rewrite ltb_spec in H1.
  destruct Prim2SF_consts as (E0 & E1 & _).
  rewrite E0 in H0. rewrite E1 in H1.
  split; [apply Prim2SF_valid | split; assumption].
Qed.

(** A draw times 20, 60 or 1200 is at least 0 and less than the factor. *)
Lemma scaled_draw_range (r c : float) (mc b : positive) (ec : Z) :
  isRandom r = true ->
  Prim2SF c = S754_finite false mc ec ->
  (2 ^ 52 < Zpos mc < 2 ^ 53)%Z -> (Zpos b + 1 = Zpos mc)%Z -> (-1074 <= ec <= 971)%Z ->
  (0 <=? r * c) = true /\ (r * c <? c) = true.
Proof.
  intros Hr Hc Hmc Hb Hec.
  pose proof (SFmul_unit_below (Prim2SF r) mc b ec (isRandom_unit_interval r Hr) Hmc Hb Hec) as Hy.
  rewrite leb_spec, ltb_spec, mul_spec, Hc. unfold SF64mul.
  destruct Prim2SF_consts as (E0 & _). rewrite E0.
  split.
  - exact (at_most_nonneg _ _ _ Hy).
  - apply (at_most_ltb _ b ec); [exact Hy | right; lia].
Qed.

Lemma speed_range (r : float) :
  isRandom r = true -> (40 <=? 40 + r * 30) = true /\ (40 + r * 30 <=? 70) = true.
Proof.
  intros Hr.
  destruct Prim2SF_consts as (_ & _ & _ & E30 & E40 & _ & E70 & _).
  assert (Hy : at_most (Prim2SF (r * 30)) 8444249301319680 (-48)).
  { rewrite mul_spec, E30. unfold SF64mul.
    assert (H : at_most (SFmul prec emax (Prim2SF r) (S754_finite false 8444249301319680 (-48)))
                        8444249301319679 (-48)).
    { apply SFmul_unit_below; try lia. exact (isRandom_unit_interval r Hr). }
    destruct H as [Hz | (my & ey & Ey & Hmy & Hle)]; [left; exact Hz | right].
    exists my, ey. repeat split; try assumption. lia. }
  destruct (speed_bounds _ Hy) as [Hlo Hhi].
  rewrite !leb_spec, add_spec, E40, E70. unfold SF64add.
  split; [exact (at_least_leb _ _ _ Hlo) | exact (at_most_leb _ _ _ Hhi)].
Qed.

Lemma throughput_range (r : float) :
  isRandom r = true -> (800 <=? 800 + r * 1200) = true /\ (800 + r * 1200 <? 2000) = true.
Proof.
  intros Hr.
  destruct Prim2SF_consts as (_ & _ & _ & _ & _ & _ & _ & E800 & E1200 & E2000).
  assert (Hy : at_most (Prim2SF (r * 1200)) 5277655813324799 (-42)).
  { rewrite mul_spec, E1200. unfold SF64mul.
    apply SFmul_unit_below; try lia.
    exact (isRandom_unit_interval r Hr). }
  destruct (throughput_bounds _ Hy) as [Hlo Hhi].
  rewrite leb_spec, ltb_spec, add_spec, E800, E2000. unfold SF64add.
  split; [exact (at_least_leb _ _ _ Hlo) |].
  apply (at_most_ltb _ 8796093022207999 (-42)); [exact Hhi | right; lia].
Qed.

Lemma queue_range (r : float) :
  isRandom r = true -> (0 <=? r * 20) = true /\ (r * 20 <? 20) = true.
Proof.
  intros Hr. destruct Prim2SF_consts as (_ & _ & E20 & _).
  apply (scaled_draw_range r 20 5629499534213120 5629499534213119 (-48) Hr E20); lia.
Qed.

Lemma wait_range (r : float) :
  isRandom r = true -> (0 <=? r * 60) = true /\ (r * 60 <? 60) = true.
Proof.
  intros Hr. destruct Prim2SF_consts as (_ & _ & _ & _ & _ & E60 & _).
  apply (scaled_draw_range r 60 8444249301319680 8444249301319679 (-47) Hr E60); lia.
Qed.

(** X1. Whatever four numbers of [[0, 1)] [Math.random()] returns, the
    sample built by the interval callback has a speed between 40 and 70
    (both included: binary64 rounding can give exactly 70), a queue length
    in [[0, 20)], a wait time in [[0, 60)] and a throughput in
    [[800, 2000)]. *)
Theorem sampler_ranges (r1 r2 r3 r4 : number) :
  isRandom r1 = true -> isRandom r2 = true ->
  isRandom r3 = true -> isRandom r4 = true ->
  let m := newMetrics r1 r2 r3 r4 in
  ((40 <=? average_speed_kmh m) = true /\ (average_speed_kmh m <=? 70) = true)
  /\ ((0 <=? total_queue_length m) = true /\ (total_queue_length m <? 20) = true)
  /\ ((0 <=? average_wait_time_seconds m) = true
      /\ (average_wait_time_seconds m <? 60) = true)
  /\ ((800 <=? throughput_vehicles_per_hour m) = true
      /\ (throughput_vehicles_per_hour m <? 2000) = true).
Proof.
  intros H1 H2 H3 H4. cbv zeta. unfold newMetrics, mkMetrics. cbn [average_speed_kmh
    total_queue_length average_wait_time_seconds throughput_vehicles_per_hour].
  split; [exact (speed_range r1 H1) |].
  split; [exact (queue_range r2 H2) |].
  split; [exact (wait_range r3 H3) | exact (throughput_range r4 H4)].
Qed.

(** At the largest draw the speed is exactly 70: the upper bound on the
    speed is attained. *)
Lemma sampler_ranges_witness :
  isRandom largestDraw = true
  /\ (average_speed_kmh (newMetrics largestDraw 0 0 0) <=? 70) = true
  /\ average_speed_kmh (newMetrics largestDraw 0 0 0) = 70.
Proof.
  split; [vm_compute; reflexivity |].
  split; [| vm_compute; reflexivity].
  exact (proj2 (proj1 (sampler_ranges largestDraw 0 0 0
                         ltac:(vm_compute; reflexivity) ltac:(vm_compute; reflexivity)
                         ltac:(vm_compute; reflexivity) ltac:(vm_compute; reflexivity)))).
Defined.

End SamplerRanges.

(** ** The dashboard's status marks *)

Lemma leb_nan_r (x : number) : (x <=? nan)%float = false.
Proof.
  rewrite leb_spec. change (Prim2SF nan) with S754_nan.
  destruct (Prim2SF x) as [ | | | ]; reflexivity.
Qed.

Lemma leb_nan_l (x : number) : (nan <=? x)%float = false.
Proof.
  rewrite leb_spec. change (Prim2SF nan) with S754_nan. reflexivity.
Qed.

(** X2. The icon of a metric card always agrees with its colour: the check
    mark goes with green and the alert mark with yellow or red, for every
    value, threshold and kind; the kinds ["warning"] and ["critical"] get
    the same icon; and a value that is [NaN] is always marked with the
    alert. *)
Theorem status_icon_matches_color (value threshold : number) (type : StatusType) :
  (getStatusIcon value threshold type = CheckCircle
   <-> getStatusColor value threshold type = "text-green-600")
  /\ (getStatusIcon value threshold type = AlertCircle
      <-> (getStatusColor value threshold type = "text-yellow-600"
           \/ getStatusColor value threshold type = "text-red-600"))
  /\ getStatusIcon value threshold warning = getStatusIcon value threshold critical
  /\ getStatusIcon nan threshold type = AlertCircle.
Proof.
  split; [| split; [| split]].
  - unfold getStatusIcon, getStatusColor.
    destruct type, (threshold <=? value)%float, (value <=? threshold)%float;
      split; intros H; try reflexivity; discriminate H.
  - unfold getStatusIcon, getStatusColor.
    destruct type, (threshold <=? value)%float, (value <=? threshold)%float;
      split; intros H; try reflexivity; try discriminate H;
      try (destruct H as [H | H]; discriminate H);
      try (left; reflexivity); right; reflexivity.
  - reflexivity.
  - unfold getStatusIcon. rewrite leb_nan_r, leb_nan_l. destruct type; reflexivity.
Qed.

(** X3. The performance summary agrees with the cards: the speed label is
    ["Good"] exactly when the speed card is green, the traffic flow label
    is ["Good"] exactly when the queue card is green, and the capacity
    label is ["Efficient"] exactly when the throughput card is green.
    After every tick of the sampler with draws in [[0, 1)] the speed card
    is green and the speed label is ["Good"]. *)
Theorem summary_matches_cards (m : SimulationMetrics) :
  (speedPerformance m = "Good"
   <-> getStatusColor (average_speed_kmh m) 40%float good = "text-green-600")
  /\ (trafficFlow m = "Good"
      <-> getStatusColor (total_queue_length m) 10%float critical = "text-green-600")
  /\ (networkCapacity m = "Efficient"
      <-> getStatusColor (throughput_vehicles_per_hour m) 1000%float good = "text-green-600")
  /\ (forall (a : App) (h : positive) (r1 r2 r3 r4 : number),
        enabled (MetricsTick h r1 r2 r3 r4) a = true ->
        let shown := currentMetrics (page (handle (MetricsTick h r1 r2 r3 r4) a)) in
        shown = newMetrics r1 r2 r3 r4
        /\ speedPerformance shown = "Good"
        /\ getStatusIcon (average_speed_kmh shown) 40%float good = CheckCircle).
Proof.
  split; [| split; [| split]].
  - unfold speedPerformance, getStatusColor.
    destruct (40 <=? average_speed_kmh m)%float; split; intros H;
      try reflexivity; discriminate H.
  - unfold trafficFlow, getStatusColor.
    destruct (total_queue_length m <=? 10)%float; split; intros H;
      try reflexivity; discriminate H.
  - unfold networkCapacity, getStatusColor.
    destruct (1000 <=? throughput_vehicles_per_hour m)%float; split; intros H;
      try reflexivity; discriminate H.
  - intros a h r1 r2 r3 r4 He. cbv zeta.
    cbn [enabled] in He. rewrite !andb_true_iff in He.
    destruct He as ((((_ & H1) & _) & _) & _).
    destruct a as [s p f d w].
    split; [reflexivity |].
    cbn. unfold speedPerformance, getStatusIcon. cbn.
    destruct (speed_range r1 H1) as [Hlo _]. rewrite Hlo. split; reflexivity.
Qed.

(** ** More on the store *)

(** X4. [updateMetrics] overwrites the metrics of the current session and
    nothing else: the session keeps its identifier, status and message, a
    later update replaces an earlier one, and without a session the store is
    left as it is. *)
Theorem updateMetrics_overwrites (s : SimulationState) (m1 m2 : SimulationMetrics) :
  updateMetrics m2 (updateMetrics m1 s) = updateMetrics m2 s
  /\ option_map simulation_id (currentSimulation (updateMetrics m1 s))
     = option_map simulation_id (currentSimulation s)
  /\ option_map status (currentSimulation (updateMetrics m1 s))
     = option_map status (currentSimulation s)
  /\ option_map message (currentSimulation (updateMetrics m1 s))
     = option_map message (currentSimulation s)
  /\ option_map metrics (currentSimulation (updateMetrics m1 s))
     = option_map (fun _ => Some m1) (currentSimulation s)
  /\ with_currentSimulation (currentSimulation s) (updateMetrics m1 s) = s
  /\ (currentSimulation s = None -> updateMetrics m1 s = s).
Proof.
  destruct s as [[cur |] net cfg tpl ld err]; repeat split; intros; try reflexivity;
    discriminate.
Qed.

(** X5. [CLEAR_SIMULATION] drops the session, the road network and the
    configuration together and keeps the templates, the loading flag and
    the error; clearing twice is clearing once; and on a cleared store both
    stopping and a metrics update change nothing. *)
Theorem clear_simulation_resets (s : SimulationState) :
  let c := dispatch CLEAR_SIMULATION s in
  (currentSimulation c = None /\ roadNetwork c = None /\ simulationConfig c = None)
  /\ (templates c = templates s /\ isLoading c = isLoading s /\ error c = error s)
  /\ dispatch CLEAR_SIMULATION c = c
  /\ dispatch STOP_SIMULATION c = c
  /\ (forall m : SimulationMetrics, updateMetrics m c = c).
Proof.
  destruct s as [cur net cfg tpl ld err]. cbv zeta. repeat split.
Qed.

(** X6. Stopping and updating the metrics commute: a metrics update that
    arrives after the stop replaces the metrics but leaves the session
    ["completed"], with the identifier it had; the reducer's stop itself
    keeps whatever metrics the session had. *)
Theorem stop_commutes_with_update (s : SimulationState) (m : SimulationMetrics) :
  updateMetrics m (dispatch STOP_SIMULATION s) = dispatch STOP_SIMULATION (updateMetrics m s)
  /\ updateMetrics m (stopSimulation s) = stopSimulation (updateMetrics m s)
  /\ option_map metrics (currentSimulation (dispatch STOP_SIMULATION s))
     = option_map metrics (currentSimulation s)
  /\ option_map simulation_id (currentSimulation (stopSimulation s))
     = option_map simulation_id (currentSimulation s)
  /\ option_map status (currentSimulation (updateMetrics m (stopSimulation s)))
     = option_map (fun _ => Completed) (currentSimulation s).
Proof.
  destruct s as [[cur |] net cfg tpl ld err]; repeat split.
Qed.

(** ** The simulation page *)

Lemma formHandleStartSimulation_effect (now : Z) (a : App) :
  formHandleStartSimulation now a
  = {| store :=
         {| currentSimulation :=
              Some {| simulation_id := "sim_" ++ string_of_Z now;
                      status := Running;
                      message := "Simulation started successfully";
                      metrics := None |};
            roadNetwork := roadNetwork (store a);
            simulationConfig := Some (config (form a));
            templates := templates (store a);
            isLoading := false;
            error := None |};
       page := {| isRunning := true; currentMetrics := currentMetrics (page a) |};
       form := form a;
       dashboard := dashboard a;
       window := setSimulationInterval (window a) |}.
Proof.
  destruct a as [s p f d w]. reflexivity.
Qed.

Lemma handleStopSimulation_effect (a : App) :
  handleStopSimulation a
  = {| store := updateMetrics zeroSample (stopSimulation (store a));
       page := {| isRunning := false; currentMetrics := zeroSample |};
       form := form a;
       dashboard := dashboard a;
       window := clearSimulationInterval (window a) |}.
Proof.
  destruct a as [s p f d w]. reflexivity.
Qed.

Lemma clickStart_cases (now : Z) (a : App) :
  (clickStart now a = a /\ (isRunning (page a) = true \/ startDisabled a = true))
  \/ (clickStart now a = formHandleStartSimulation now a
      /\ isRunning (page a) = false /\ startDisabled a = false).
Proof.
  unfold clickStart.
  destruct (isRunning (page a)); [left; auto |].
  destruct (startDisabled a); [left; auto | right; auto].
Qed.

(** X7. A click on the enabled start button while the page is not running
    starts a session: the store holds a fresh ["running"] session without
    metrics and the form's configuration, the page is running, and one new
    interval is installed and remembered.  The form, the history and the
    metrics on display are not touched. *)
Theorem start_click_starts_session (a : App) (now : Z) :
  startDisabled a = false -> isRunning (page a) = false ->
  let a' := handle (StartClicked now) a in
  currentSimulation (store a')
  = Some {| simulation_id := "sim_" ++ string_of_Z now;
            status := Running;
            message := "Simulation started successfully";
            metrics := None |}
  /\ simulationConfig (store a') = Some (config (form a))
  /\ roadNetwork (store a') = roadNetwork (store a)
  /\ isRunning (page a') = true
  /\ currentMetrics (page a') = currentMetrics (page a)
  /\ simulationInterval (window a') = Some (nextHandle (window a))
  /\ activeIntervals (window a') = nextHandle (window a) :: activeIntervals (window a)
  /\ form a' = form a
  /\ dashboard a' = dashboard a.
Proof.
  intros Hen Hidle. cbv zeta. cbn [handle].
  destruct (clickStart_cases now a) as [[_ [H | H]] | [-> _]]; try congruence.
  rewrite formHandleStartSimulation_effect. cbn. repeat split.
Qed.

Lemma start_click_starts_session_witness :
  sessionStatus (handle (StartClicked 1700000000000) (initialApp mockRoadNetwork))
  = Some Running
  /\ simulationInterval
       (window (handle (StartClicked 1700000000000) (initialApp mockRoadNetwork)))
     = Some 1%positive.
Proof.
  destruct (start_click_starts_session (initialApp mockRoadNetwork) 1700000000000)
    as (H1 & _ & _ & _ & _ & H6 & _).
  - vm_compute. reflexivity.
  - reflexivity.
  - unfold sessionStatus. rewrite H1. split; [reflexivity | exact H6].
Defined.

Lemma invariant_step (network : RoadNetwork.t) (a : App) (e : Event) :
  timersConsistent a /\ storeConsistent network a ->
  timersConsistent (handle e a) /\ storeConsistent network (handle e a).
Proof.
  intros [[Hact Hrun] (Hnet & Htpl & Hld & Herr & Hcur)].
  destruct e as [now | | | h r1 r2 r3 r4 | ts | v | v | fld v | key |]; cbn [handle].
  - (* start *)
    destruct (clickStart_cases now a) as [[-> _] | (-> & Hidle & _)].
    + repeat split; assumption || apply Hrun.
    + rewrite formHandleStartSimulation_effect.
      assert (Hnone : simulationInterval (window a) = None).
      { destruct (simulationInterval (window a)) eqn:E; [| reflexivity].
        assert (isRunning (page a) = true) by (apply Hrun; discriminate). congruence. }
      unfold timersConsistent, storeConsistent. cbn.
      rewrite Hact, Hnone.
      repeat split; auto; try discriminate.
  - (* stop *)
    assert (Hc : clickStop a = a \/ clickStop a = handleStopSimulation a).
    { unfold clickStop. destruct (isRunning (page a)); auto. }
    destruct Hc as [-> | ->].
    + repeat split; assumption || apply Hrun.
    + rewrite handleStopSimulation_effect.
      unfold timersConsistent, storeConsistent. cbn.
      rewrite clearSimulationInterval_none.
      assert (Hempty : activeIntervals (clearSimulationInterval (window a)) = []).
      { unfold clearSimulationInterval.
        destruct (simulationInterval (window a)) as [h |] eqn:E; [| exact Hact].
        cbn. rewrite Hact. cbn. rewrite Pos.eqb_refl. reflexivity. }
      rewrite Hempty.
      destruct (currentSimulation (store a)) as [cur |]; cbn.
      * repeat split; auto; try discriminate; try congruence.
        destruct Hcur as (_ & _ & Hcfg). exact Hcfg.
      * destruct Hcur as [_ Hcfg]. repeat split; auto; try discriminate; congruence.
  - (* reset *)
    rewrite handleReset_effect.
    unfold timersConsistent, storeConsistent. cbn.
    rewrite clearSimulationInterval_none.
    assert (Hempty : activeIntervals (clearSimulationInterval (window a)) = []).
    { unfold clearSimulationInterval.
      destruct (simulationInterval (window a)) as [h |] eqn:E; [| exact Hact].
      cbn. rewrite Hact. cbn. rewrite Pos.eqb_refl. reflexivity. }
    rewrite Hempty.
    destruct (currentSimulation (store a)) as [cur |]; cbn.
    + destruct Hcur as (Hst & _ & Hcfg).
      repeat split; auto; try discriminate; try congruence.
    + destruct Hcur as [_ Hcfg].
      repeat split; auto; try discriminate; try congruence.
  - (* sampler tick *)
    destruct a as [s p f d w]. unfold timersConsistent, storeConsistent in *. cbn in *.
    destruct (currentSimulation s) as [cur |]; cbn; repeat split; tauto.
  - (* dashboard tick *)
    destruct a as [s p f d w]. unfold timersConsistent, storeConsistent in *. cbn in *.
    repeat split; tauto.
  - destruct a as [s p f d w]. unfold timersConsistent, storeConsistent in *. cbn in *.
    repeat split; tauto.
  - destruct a as [s p f d w]. unfold timersConsistent, storeConsistent in *. cbn in *.
    repeat split; tauto.
  - destruct a as [s p f d w]. unfold timersConsistent, storeConsistent in *. cbn in *.
    repeat split; tauto.
  - destruct a as [s p f d w]. unfold timersConsistent, storeConsistent in *. cbn in *.
    repeat split; tauto.
  - destruct a as [s p f d w]. unfold timersConsistent, storeConsistent in *. cbn in *.
    repeat split; tauto.
Qed.

Lemma invariant_init (network : RoadNetwork.t) :
  timersConsistent (initialApp network) /\ storeConsistent network (initialApp network).
Proof.
  unfold timersConsistent, storeConsistent. cbn.
  repeat split; auto; intros H; try discriminate H; now contradiction H.
Qed.

Lemma reachable_consistent (network : RoadNetwork.t) (a : App) :
  reachable network a -> timersConsistent a /\ storeConsistent network a.
Proof.
  induction 1 as [| a e _ IH _].
  - apply invariant_init.
  - now apply invariant_step.
Qed.





(** X10. Only a dashboard tick changes the chart history, so neither start
    nor stop nor reset ever clears it; only the form's own events change
    the form, so a reset never restores the default configuration; the
    form's events change nothing but the form; and no event of the page
    removes or replaces the road network or the templates. *)
Theorem events_frame (e : Event) (a : App) :
  match e with
  | DashboardTick _ => True
  | _ => dashboard (handle e a) = dashboard a
  end
  /\ (if isFormEvent e
      then store (handle e a) = store a /\ page (handle e a) = page a
           /\ window (handle e a) = window a
      else form (handle e a) = form a)
  /\ roadNetwork (store (handle e a)) = roadNetwork (store a)
  /\ templates (store (handle e a)) = templates (store a).
Proof.
  destruct e as [now | | | h r1 r2 r3 r4 | ts | v | v | fld v | key |];
    cbn [handle isFormEvent].
  - destruct (clickStart_cases now a) as [[-> _] | [-> _]]; [repeat split |].
    rewrite formHandleStartSimulation_effect. repeat split.
  - unfold clickStop. destruct (isRunning (page a)); [| repeat split].
    rewrite handleStopSimulation_effect. cbn.
    destruct (store a) as [[cur |] net cfg tpl ld err]; repeat split.
  - rewrite handleReset_effect. cbn.
    destruct (store a) as [[cur |] net cfg tpl ld err]; repeat split.
  - destruct a as [[[cur |] net cfg tpl ld err] p f d w]; repeat split.
  - destruct a as [s p f d w]; repeat split.
  - destruct a as [s p f d w]; repeat split.
  - destruct a as [s p f d w]; repeat split.
  - destruct a as [s p f d w]; repeat split.
  - destruct a as [s p f d w]; repeat split.
  - destruct a as [s p f d w]; repeat split.
Qed.

(** X12. Started twice without a stop in between, the page remembers only
    the second interval: the following stop clears that one, and the first
    interval stays active, so its ticks are still delivered after the
    stop. *)
Theorem second_start_orphans_interval
  (a : App) (config1 config2 : SimulationConfig) (now1 now2 : Z) :
  let first := nextHandle (window a) in
  let a' :=
    handleStopSimulation
      (handleStartSimulation config2 now2 (handleStartSimulation config1 now1 a)) in
  simulationInterval (window a') = None
  /\ isRunning (page a') = false
  /\ In first (activeIntervals (window a'))
  /\ ~ In (Pos.succ first) (activeIntervals (window a'))
  /\ (forall r1 r2 r3 r4 : number,
        isRandom r1 = true -> isRandom r2 = true ->
        isRandom r3 = true -> isRandom r4 = true ->
        enabled (MetricsTick first r1 r2 r3 r4) a' = true).
Proof.
  destruct a as [s p f d [cur act nxt]]. cbv zeta. cbn.
  assert (Hne : (nxt =? Pos.succ nxt)%positive = false) by (apply Pos.eqb_neq; lia).
  rewrite Pos.eqb_refl, Hne. cbn.
  assert (Hin : In nxt (nxt :: filter (fun h' => negb (h' =? Pos.succ nxt)%positive) act))
    by (left; reflexivity).
  repeat split.
  - exact Hin.
  - intros [H | H]; [lia |].
    apply filter_In in H. destruct H as [_ H]. rewrite Pos.eqb_refl in H. discriminate H.
  - intros r1 r2 r3 r4 H1 H2 H3 H4. rewrite Pos.eqb_refl, H1, H2, H3, H4. reflexivity.
Qed.

(** ** Ticks *)






(** X19. One tick of the dashboard appends the point built from the
    metrics on display at the tail of the history and counts one more
    update; while the history has fewer than 20 entries nothing is evicted,
    and from 20 entries on exactly the oldest entry is dropped. *)
Theorem dashboardInterval_appends
  (m : SimulationMetrics) (timestamp : string) (d : DashboardState) :
  let d' := dashboardInterval m timestamp d in
  updateCount d' = (updateCount d + 1)%Z
  /\ last (historicalData d') (dataPointOf m timestamp) = dataPointOf m timestamp
  /\ historicalData d' <> []
  /\ ((List.length (historicalData d) < 20)%nat ->
      historicalData d' = historicalData d ++ [dataPointOf m timestamp])
  /\ (List.length (historicalData d) = 20%nat ->
      historicalData d' = tl (historicalData d) ++ [dataPointOf m timestamp]).
Proof.
  cbv zeta. unfold dashboardInterval. cbn [updateCount historicalData].
  fold (dataPointOf m timestamp).
  set (pt := dataPointOf m timestamp). set (h := historicalData d).
  rewrite appendDataPoint_lastn.
  assert (Heq : lastn 20 (h ++ [pt]) = skipn (List.length h - 19) h ++ [pt]).
  { unfold lastn. rewrite length_app, skipn_app. cbn [List.length].
    replace (List.length h + 1 - 20)%nat with (List.length h - 19)%nat by lia.
    replace (List.length h - 19 - List.length h)%nat with 0%nat by lia.
    reflexivity. }
  rewrite Heq.
  split; [reflexivity |]. split; [apply last_last |].
  split; [intros H; apply app_eq_nil in H; destruct H as [_ H]; discriminate H |].
  split.
  - intros Hlt. replace (List.length h - 19)%nat with 0%nat by lia. reflexivity.
  - intros H20. replace (List.length h - 19)%nat with 1%nat by lia.
    destruct h; reflexivity.
Qed.

(** ** More on the configuration form *)

Lemma handleTemplateChange_found (templates : list SimulationTemplate.t)
  (key : string) (t : SimulationTemplate.t) (f : ConfigForm) :
  find (fun t => String.eqb (SimulationTemplate.name t) key) templates = Some t ->
  handleTemplateChange templates key f
  = {| config := configOfTemplate t; selectedTemplate := key;
       showAdvanced := showAdvanced f |}.
Proof.
  intros Hfind. unfold handleTemplateChange. rewrite Hfind. reflexivity.
Qed.

(** X13. Choosing a template whose name is in the list replaces the whole
    configuration by the template's values with a duration of 3600 and
    records the choice; a key that names no template (such as the empty
    placeholder option) changes nothing, not even the recorded choice.
    Each of the three built-in templates yields a configuration that passes
    validation, so in every state the page can reach, choosing one of them
    leaves the start button enabled. *)
Theorem template_change_effect (templates : list SimulationTemplate.t)
  (key : string) (f : ConfigForm) :
  (forall t : SimulationTemplate.t,
      find (fun t => String.eqb (SimulationTemplate.name t) key) templates = Some t ->
      SimulationTemplate.name t = key
      /\ config (handleTemplateChange templates key f) = configOfTemplate t
      /\ selectedTemplate (handleTemplateChange templates key f) = key
      /\ showAdvanced (handleTemplateChange templates key f) = showAdvanced f)
  /\ (find (fun t => String.eqb (SimulationTemplate.name t) key) templates = None ->
      handleTemplateChange templates key f = f)
  /\ handleTemplateChange mockTemplates "" f = f
  /\ (forall t : SimulationTemplate.t,
        In t mockTemplates ->
        validateConfig
          (config (handleTemplateChange mockTemplates (SimulationTemplate.name t) f))
        = true)
  /\ (forall (network : RoadNetwork.t) (a : App) (t : SimulationTemplate.t),
        reachable network a -> In t mockTemplates ->
        startDisabled (handle (TemplateChanged (SimulationTemplate.name t)) a) = false).
Proof.
  assert (Hvalid : forall (t : SimulationTemplate.t) (g : ConfigForm),
             In t mockTemplates ->
             validateConfig
               (config (handleTemplateChange mockTemplates (SimulationTemplate.name t) g))
             = true).
  { intros t g Hin. cbn in Hin.
    destruct Hin as [<- | [<- | [<- | []]]]; vm_compute; reflexivity. }
  split; [| split; [| split; [| split]]].
  - intros t Hfind. rewrite (handleTemplateChange_found _ _ _ _ Hfind).
    apply find_some in Hfind. destruct Hfind as [_ Hname].
    apply String.eqb_eq in Hname. repeat split. exact Hname.
  - intros Hnone. unfold handleTemplateChange. rewrite Hnone. reflexivity.
  - reflexivity.
  - intros t Hin. now apply Hvalid.
  - intros network a t Hreach Hin.
    destruct (reachable_consistent network a Hreach) as [_ (Hnet & Htpl & _)].
    unfold startDisabled. cbn [handle].
    destruct a as [s p g d w]. cbn in *. rewrite Hnet, Htpl.
    rewrite (Hvalid t g Hin). reflexivity.
Qed.

(** X14. Writing a field of the configuration and reading it back gives
    the written value; a second write to the same field replaces the first;
    writing back what was read changes nothing; and writes to different
    fields do not disturb each other and can be swapped. *)
Theorem updateField_laws (f g : Field) (v v' : FieldValue f) (w : FieldValue g)
  (c : SimulationConfig) :
  readField f (updateField f v c) = v
  /\ updateField f v' (updateField f v c) = updateField f v' c
  /\ updateField f (readField f c) c = c
  /\ (Field_eqb f g = false ->
      readField g (updateField f v c) = readField g c
      /\ updateField g w (updateField f v c) = updateField f v (updateField g w c)).
Proof.
  destruct c as [vph car truck phf sig gt yt rt dur].
  destruct f; (split; [reflexivity | split; [reflexivity | split; [reflexivity |]]]);
    destruct g; intros Hne; try discriminate Hne; split; reflexivity.
Qed.



(** ** The upload page *)

Lemma handleFileSelect_accepted (file : Upload.File) (s : Upload.State) :
  Upload.acceptable file = true ->
  Upload.handleFileSelect file s
  = Upload.readAsDataURL (Upload.setSelectedFile (Some file) (Upload.setError None s)).
Proof.
  unfold Upload.acceptable, Upload.handleFileSelect, andThen.
  intros H. apply andb_true_iff in H. destruct H as [Hp Hs].
  rewrite Hp. apply negb_true_iff in Hs. rewrite Hs. reflexivity.
Qed.

Lemma handleFileSelect_rejected (file : Upload.File) (s : Upload.State) :
  Upload.acceptable file = false ->
  Upload.handleFileSelect file s
  = Upload.setError
      (Some (if String.prefix "image/" (Upload.type file)
             then "File size must be less than 10MB"
             else "Please select an image file (JPG, PNG, BMP)"))
      (Upload.setError None s).
Proof.
  unfold Upload.acceptable, Upload.handleFileSelect, andThen.
  intros H. destruct (String.prefix "image/" (Upload.type file)); cbn in *.
  - apply negb_false_iff in H. rewrite H. reflexivity.
  - reflexivity.
Qed.

(** X16. Selecting a file keeps it exactly when its type starts with
    ["image/"] and its size is not above 10 * 1024 * 1024 bytes (so a file
    of exactly that size is kept, although the message says "less than").
    An accepted file becomes the selection, the error is cleared and one
    read for the preview is started.  A rejected file leaves the earlier
    selection in place and sets the error, the type being checked before
    the size.  Nothing else of the page's state changes. *)
Theorem handleFileSelect_accepts_images (file : Upload.File) (s : Upload.State) :
  let s' := Upload.handleFileSelect file s in
  (Upload.acceptable file = true ->
   Upload.selectedFile s' = Some file
   /\ Upload.error s' = None
   /\ Upload.pendingReads s' = S (Upload.pendingReads s))
  /\ (Upload.acceptable file = false ->
      Upload.selectedFile s' = Upload.selectedFile s
      /\ Upload.pendingReads s' = Upload.pendingReads s
      /\ Upload.error s'
         = Some (if String.prefix "image/" (Upload.type file)
                 then "File size must be less than 10MB"
                 else "Please select an image file (JPG, PNG, BMP)"))
  /\ (Upload.preview s' = Upload.preview s
      /\ Upload.dragActive s' = Upload.dragActive s
      /\ Upload.uploading s' = Upload.uploading s
      /\ Upload.uploadSuccess s' = Upload.uploadSuccess s)
  /\ (String.prefix "image/" (Upload.type file) = true ->
      Upload.size file = 10485760%float ->
      Upload.acceptable file = true).
Proof.
  cbv zeta. split; [| split; [| split]].
  - intros Hacc. rewrite (handleFileSelect_accepted file s Hacc). repeat split.
  - intros Hrej. rewrite (handleFileSelect_rejected file s Hrej). repeat split.
  - destruct (Upload.acceptable file) eqn:Hacc.
    + rewrite (handleFileSelect_accepted file s Hacc). repeat split.
    + rewrite (handleFileSelect_rejected file s Hacc). repeat split.
  - intros Hp Hs. unfold Upload.acceptable. rewrite Hp, Hs. vm_compute. reflexivity.
Qed.

Lemma handleFileSelect_selected (file f : Upload.File) (s : Upload.State) :
  (forall g, Upload.selectedFile s = Some g -> Upload.acceptable g = true) ->
  Upload.selectedFile (Upload.handleFileSelect file s) = Some f ->
  Upload.acceptable f = true.
Proof.
  intros Hs. destruct (Upload.acceptable file) eqn:Hacc.
  - rewrite (handleFileSelect_accepted file s Hacc). cbn. intros [= <-]. exact Hacc.
  - rewrite (handleFileSelect_rejected file s Hacc). cbn. apply Hs.
Qed.

Lemma handleFileSelect_frame (file : Upload.File) (s : Upload.State) :
  Upload.uploading (Upload.handleFileSelect file s) = Upload.uploading s
  /\ Upload.uploadSuccess (Upload.handleFileSelect file s) = Upload.uploadSuccess s
  /\ Upload.uploadsInFlight (Upload.handleFileSelect file s) = Upload.uploadsInFlight s.
Proof.
  destruct (Upload.acceptable file) eqn:Hacc.
  - rewrite (handleFileSelect_accepted file s Hacc). repeat split.
  - rewrite (handleFileSelect_rejected file s Hacc). repeat split.
Qed.

(** What every step of the upload page keeps true. *)
Lemma upload_step (store0 : SimulationState) (p : Upload.State * SimulationState)
  (e : Upload.Event) :
  Upload.enabled e p = true ->
  uploadConsistent store0 p -> uploadConsistent store0 (Upload.handle e p).
Proof.
  intros Hen (Hsel & Hst & Hnet & Hup & Hfl).
  destruct p as [s st]. cbn [fst snd] in *.
  destruct e as [ty | files | files | | | | result];
    unfold uploadConsistent; cbn [Upload.handle fst snd].
  - unfold Upload.handleDrag.
    destruct (_ || _); [| destruct (String.eqb _ _)]; cbn; auto.
  - unfold Upload.handleDrop, andThen. destruct files as [| file files]; [cbn; auto |].
    destruct (handleFileSelect_frame file (Upload.setDragActive false s)) as (-> & -> & ->).
    cbn. split; [| auto].
    intros f. apply handleFileSelect_selected. exact Hsel.
  - unfold Upload.handleFileInput. destruct files as [| file files]; [cbn; auto |].
    destruct (handleFileSelect_frame file s) as (-> & -> & ->).
    split; [| auto].
    intros f. apply handleFileSelect_selected. exact Hsel.
  - cbn. repeat split; auto. discriminate.
  - cbn in Hen. unfold Upload.handleUploadBegin.
    destruct (Upload.selectedFile s) eqn:E; [| discriminate Hen].
    apply negb_true_iff in Hen. rewrite Hen in Hup.
    cbn. rewrite E.
    assert (Upload.uploadsInFlight s = 0%nat).
    { destruct (Upload.uploadsInFlight s); [reflexivity | discriminate Hup]. }
    repeat split; auto; lia.
  - cbn in Hen. apply negb_true_iff, Nat.eqb_neq in Hen.
    unfold Upload.handleUploadEnd, andThen. cbn [fst snd].
    assert (Hone : Upload.uploadsInFlight s = 1%nat) by lia.
    split; [exact Hsel |]. split; [destruct st; exact Hst |].
    split; [reflexivity |]. cbn. rewrite Hone. split; [reflexivity | lia].
  - cbn. auto.
Qed.

(** X17. Whatever drags, drops, file choices, removals, uploads, ends of
    uploads and preview results the upload page receives, in any order:
    the selected file is always an image of at most 10 * 1024 * 1024 bytes;
    the store differs from the one the page started with at most in the
    road network, which is the extracted network once an upload has
    succeeded and the original one before; and at most one upload is
    waiting at a time, exactly while the uploading flag is up. *)
Theorem upload_invariant (store0 : SimulationState)
  (p : Upload.State * SimulationState) :
  Upload.reachable store0 p ->
  (forall f : Upload.File, Upload.selectedFile (fst p) = Some f -> Upload.acceptable f = true)
  /\ with_roadNetwork (roadNetwork store0) (snd p) = store0
  /\ (if Upload.uploadSuccess (fst p)
      then roadNetwork (snd p) = Some mockRoadNetwork
      else roadNetwork (snd p) = roadNetwork store0)
  /\ Upload.uploading (fst p) = negb (Nat.eqb (Upload.uploadsInFlight (fst p)) 0)
  /\ (Upload.uploadsInFlight (fst p) <= 1)%nat.
Proof.
  induction 1 as [| p e _ IH Hen].
  - cbn. repeat split; try discriminate; try lia. destruct store0; reflexivity.
  - exact (upload_step store0 p e Hen IH).
Qed.

Lemma upload_invariant_witness :
  roadNetwork
    (snd (Upload.handle Upload.UploadResolved
            (Upload.handle Upload.UploadClicked
               (Upload.handle (Upload.Dropped [photo])
                  (Upload.initialState, initialState)))))
  = Some mockRoadNetwork.
Proof.
  assert (Hreach : Upload.reachable initialState
                     (Upload.handle Upload.UploadResolved
                        (Upload.handle Upload.UploadClicked
                           (Upload.handle (Upload.Dropped [photo])
                              (Upload.initialState, initialState))))).
  { apply Upload.reach_step; [| vm_compute; reflexivity].
    apply Upload.reach_step; [| vm_compute; reflexivity].
    apply Upload.reach_step; [apply Upload.reach_init | reflexivity]. }
  destruct (upload_invariant initialState _ Hreach) as (_ & _ & Hnet & _).
  exact Hnet.
Defined.

(** X18. An upload without a selected file changes neither the page nor the
    store.  With a selected file, and nothing happening during its delay,
    it puts the extracted road network in the store (whatever network was
    there), leaves the session, configuration and templates alone, flags
    the success, clears the error and ends with the uploading flag off; on
    a fresh store this is the store with which the simulation page starts,
    where the default form can be started. *)
Theorem handleUpload_sets_network (u : Upload.State) (st : SimulationState) :
  (Upload.selectedFile u = None ->
   Upload.handleUpload (u, st) = (u, st) /\ Upload.handleUploadBegin u = u)
  /\ (Upload.selectedFile u <> None ->
      let p := Upload.handleUpload (u, st) in
      snd p = with_roadNetwork (Some mockRoadNetwork) st
      /\ Upload.uploadSuccess (fst p) = true
      /\ Upload.uploading (fst p) = false
      /\ Upload.error (fst p) = None
      /\ Upload.selectedFile (fst p) = Upload.selectedFile u
      /\ Upload.preview (fst p) = Upload.preview u
      /\ Upload.uploadsInFlight (fst p) = Upload.uploadsInFlight u)
  /\ (Upload.selectedFile u <> None ->
      let a := {| store := loadTemplates (snd (Upload.handleUpload (u, initialState)));
                  page := initialPage; form := initialForm;
                  dashboard := initialDashboard; window := initialWindow |} in
      a = initialApp mockRoadNetwork
      /\ startDisabled a = false
      /\ forall now : Z, sessionStatus (handle (StartClicked now) a) = Some Running).
Proof.
  unfold Upload.handleUpload, Upload.handleUploadBegin.
  destruct u as [drag sel prev upl succ err pend fl].
  cbn [fst snd Upload.selectedFile].
  split; [| split].
  - intros ->. split; reflexivity.
  - destruct sel; [| congruence]. intros _. cbn. repeat split.
  - destruct sel; [| congruence]. intros _. cbv zeta. cbn [snd].
    split; [reflexivity |]. split; [vm_compute; reflexivity |].
    intros now. reflexivity.
Qed.

(** ** Sliders and validity *)

Lemma Zrange_In (lo : Z) (n : nat) (v : Z) :
  (lo <= v < lo + Z.of_nat n)%Z -> In v (Zrange lo n).
Proof.
  intros Hv. unfold Zrange. apply in_map_iff.
  exists (Z.to_nat (v - lo)). split; [lia |]. apply in_seq. lia.
Qed.

Lemma forallb_Zrange (P : Z -> bool) (lo : Z) (n : nat) :
  forallb P (Zrange lo n) = true ->
  forall v : Z, (lo <= v < lo + Z.of_nat n)%Z -> P v = true.
Proof.
  intros Hall v Hv. rewrite forallb_forall in Hall. apply Hall. now apply Zrange_In.
Qed.

Lemma validateConfig_parts (c : SimulationConfig) :
  validateConfig c
  = (demandOk (vehicles_per_hour c)
     && mixOk (car_percentage c) (truck_percentage c)
     && peakOk (peak_hour_factor c)
     && greenOk (green_time c) && yellowOk (yellow_time c) && redOk (red_time c)).
Proof.
  unfold validateConfig, demandOk, mixOk, peakOk, greenOk, yellowOk, redOk.
  now rewrite !andb_assoc.
Qed.

Lemma slider_values_ok :
  forallb (fun v => demandOk (parseInt (string_of_Z v))) (Zrange 100 4901) = true
  /\ forallb (fun v => greenOk (parseInt (string_of_Z v))) (Zrange 10 111) = true
  /\ forallb (fun v => yellowOk (parseInt (string_of_Z v))) (Zrange 1 10) = true
  /\ forallb (fun v => redOk (parseInt (string_of_Z v))) (Zrange 0 121) = true.
Proof.
  split; [| split; [| split]]; vm_compute; reflexivity.
Qed.

Lemma validateConfig_after_update (f : ConfigForm) (field : Field) (x : FieldValue field) :
  validateConfig (config f) = true ->
  match field return FieldValue field -> bool with
  | F_vehicles_per_hour => demandOk
  | F_car_percentage => fun car => mixOk car (truck_percentage (config f))
  | F_truck_percentage => fun truck => mixOk (car_percentage (config f)) truck
  | F_peak_hour_factor => peakOk
  | F_signal_control => fun _ => true
  | F_green_time => greenOk
  | F_yellow_time => yellowOk
  | F_red_time => redOk
  | F_simulation_duration => fun _ => true
  end x = true ->
  validateConfig (config (handleInputChange field x f)) = true.
Proof.
  destruct f as [c sel adv]. cbn [config handleInputChange setConfig].
  rewrite !validateConfig_parts.
  destruct c as [vph car truck phf sig gt yt rt dur].
  intros Hvalid. cbn [vehicles_per_hour car_percentage truck_percentage peak_hour_factor
    green_time yellow_time red_time] in Hvalid.
  rewrite !andb_true_iff in Hvalid.
  destruct Hvalid as (((((Hvph & Hmix) & Hphf) & Hgt) & Hyt) & Hrt).
  destruct field; cbn [updateField vehicles_per_hour car_percentage truck_percentage
    peak_hour_factor green_time yellow_time red_time]; intros Hx;
    rewrite ?Hx, ?Hvph, ?Hmix, ?Hphf, ?Hgt, ?Hyt, ?Hrt; reflexivity.
Qed.

Lemma validateConfig_after_mix (c : SimulationConfig) (car truck : number) :
  validateConfig c = true -> mixOk car truck = true ->
  validateConfig (updateField F_truck_percentage truck (updateField F_car_percentage car c))
  = true
  /\ validateConfig (updateField F_car_percentage car (updateField F_truck_percentage truck c))
     = true.
Proof.
  rewrite !validateConfig_parts.
  destruct c as [vph car0 truck0 phf sig gt yt rt dur].
  cbn [updateField vehicles_per_hour car_percentage truck_percentage peak_hour_factor
    green_time yellow_time red_time].
  intros Hvalid Hmix. rewrite !andb_true_iff in Hvalid.
  destruct Hvalid as (((((Hvph & _) & Hphf) & Hgt) & Hyt) & Hrt).
  rewrite Hmix, Hvph, Hphf, Hgt, Hyt, Hrt. split; reflexivity.
Qed.

(** X20. Moving a slider cannot make a valid configuration invalid: from a
    configuration that passes validation, the vehicles slider at any
    integer from 100 to 5000, the green slider from 10 to 120, the yellow
    slider from 1 to 10, the red slider from 0 to 120, either mix slider
    from 0 to 100, a peak factor between 1 and 2, and any choice of control
    strategy or duration all give a configuration that passes validation
    again. *)
Theorem sliders_keep_valid (f : ConfigForm) (v : Z) :
  validateConfig (config f) = true ->
  ((100 <= v <= 5000)%Z ->
   validateConfig
     (config (handleInputChange F_vehicles_per_hour (parseInt (string_of_Z v)) f)) = true)
  /\ ((10 <= v <= 120)%Z ->
      validateConfig
        (config (handleInputChange F_green_time (parseInt (string_of_Z v)) f)) = true)
  /\ ((1 <= v <= 10)%Z ->
      validateConfig
        (config (handleInputChange F_yellow_time (parseInt (string_of_Z v)) f)) = true)
  /\ ((0 <= v <= 120)%Z ->
      validateConfig
        (config (handleInputChange F_red_time (parseInt (string_of_Z v)) f)) = true)
  /\ ((0 <= v <= 100)%Z ->
      validateConfig (config (onCarPercentageChange (string_of_Z v) f)) = true
      /\ validateConfig (config (onTruckPercentageChange (string_of_Z v) f)) = true)
  /\ (forall p : number,
        (1.0 <=? p)%float = true -> (p <=? 2.0)%float = true ->
        validateConfig (config (handleInputChange F_peak_hour_factor p f)) = true)
  /\ (forall s : string,
        validateConfig (config (handleInputChange F_signal_control s f)) = true)
  /\ (forall d : number,
        validateConfig (config (handleInputChange F_simulation_duration d f)) = true).
Proof.
  intros Hvalid.
  destruct slider_values_ok as (Hd & Hg & Hy & Hr).
  split; [| split; [| split; [| split; [| split; [| split; [| split]]]]]].
  - intros Hv. apply validateConfig_after_update; [exact Hvalid |].
    apply (forallb_Zrange _ _ _ Hd v). lia.
  - intros Hv. apply validateConfig_after_update; [exact Hvalid |].
    apply (forallb_Zrange _ _ _ Hg v). lia.
  - intros Hv. apply validateConfig_after_update; [exact Hvalid |].
    apply (forallb_Zrange _ _ _ Hy v). lia.
  - intros Hv. apply validateConfig_after_update; [exact Hvalid |].
    apply (forallb_Zrange _ _ _ Hr v). lia.
  - intros Hv. destruct (percent_numbers v Hv) as (Hp & Hsub & Hsum & Hsum').
    rewrite onCarPercentageChange_config, onTruckPercentageChange_config, Hp, Hsub.
    split.
    + exact (proj1 (validateConfig_after_mix (config f) _ _ Hvalid Hsum)).
    + exact (proj2 (validateConfig_after_mix (config f) _ _ Hvalid Hsum')).
  - intros p Hlo Hhi. apply validateConfig_after_update; [exact Hvalid |].
    unfold peakOk. now rewrite Hlo, Hhi.
  - intros s. now apply validateConfig_after_update.
  - intros d. now apply validateConfig_after_update.
Qed.

Lemma sliders_keep_valid_witness :
  validateConfig
    (config (handleInputChange F_vehicles_per_hour (parseInt "2500") initialForm)) = true.
Proof.
  exact (proj1 (sliders_keep_valid initialForm 2500 ltac:(vm_compute; reflexivity))
           ltac:(lia)).
Defined.

(** ** Session identifiers *)

Lemma string_of_Z_inj (z1 z2 : Z) : string_of_Z z1 = string_of_Z z2 -> z1 = z2.
Proof.
  unfold string_of_Z. intros Heq.
  assert (Hnn : forall z : Z, Z.to_int z <> Decimal.Pos Decimal.Nil
                              /\ Z.to_int z <> Decimal.Neg Decimal.Nil).
  { intros [| p | p]; cbn; split; intros [= H]; try discriminate H;
      now apply (DecimalPos.Unsigned.to_uint_nonnil p). }
  pose proof (NilZero.isi (Z.to_int z1) (proj1 (Hnn z1)) (proj2 (Hnn z1))) as H1.
  pose proof (NilZero.isi (Z.to_int z2) (proj1 (Hnn z2)) (proj2 (Hnn z2))) as H2.
  rewrite Heq, H2 in H1. injection H1 as H1.
  rewrite <- (DecimalZ.of_to z1), <- (DecimalZ.of_to z2). now rewrite H1.
Qed.

(** X21. The identifier of a started session is determined by the clock
    reading and by nothing else: two starts, from whatever stores and with
    whatever configurations, give the same identifier exactly when
    [Date.now()] returned the same number of milliseconds. *)
Theorem session_id_follows_clock
  (s1 s2 : SimulationState) (config1 config2 : SimulationConfig) (now1 now2 : Z) :
  option_map simulation_id (currentSimulation (startSimulation config1 now1 s1))
  = option_map simulation_id (currentSimulation (startSimulation config2 now2 s2))
  <-> now1 = now2.
Proof.
  cbn. split.
  - intros [= H]. now apply string_of_Z_inj.
  - intros ->. reflexivity.
Qed.

(** ** The history in reachable states *)

Lemma appendDataPoint_length (p : DataPoint) (h : list DataPoint) :
  List.length (appendDataPoint p h) = Nat.min 20 (List.length h + 1).
Proof.
  rewrite appendDataPoint_lastn, lastn_length, length_app. reflexivity.
Qed.

Lemma dashboard_unchanged (e : Event) (a : App) :
  (forall timestamp : string, e <> DashboardTick timestamp) ->
  dashboard (handle e a) = dashboard a.
Proof.
  intros Hne.
  destruct e as [now | | | h r1 r2 r3 r4 | ts | v | v | fld v | key |]; cbn [handle].
  - destruct (clickStart_cases now a) as [[-> _] | [-> _]]; [reflexivity |].
    now rewrite formHandleStartSimulation_effect.
  - unfold clickStop. destruct (isRunning (page a)); [| reflexivity].
    now rewrite handleStopSimulation_effect.
  - now rewrite handleReset_effect.
  - destruct a; reflexivity.
  - now contradiction (Hne ts).
  - destruct a; reflexivity.
  - destruct a; reflexivity.
  - destruct a; reflexivity.
  - destruct a; reflexivity.
  - destruct a; reflexivity.
Qed.

(** X22. In every state the page can reach, the chart history holds as many
    points as the dashboard has counted updates, up to 20: its length is
    the smaller of the update count and 20. *)
Theorem history_length_follows_updates (network : RoadNetwork.t) (a : App) :
  reachable network a ->
  Z.of_nat (List.length (historicalData (dashboard a)))
  = Z.min (updateCount (dashboard a)) 20
  /\ (0 <= updateCount (dashboard a))%Z
  /\ (List.length (historicalData (dashboard a)) <= 20)%nat.
Proof.
  induction 1 as [| a e _ (Hlen & Hpos & Hcap) _].
  - cbn. repeat split; lia.
  - destruct e as [now | | | h r1 r2 r3 r4 | ts | v | v | fld v | key |];
      try (rewrite dashboard_unchanged by discriminate; repeat split; assumption).
    destruct a as [s p f d w]. cbn in *.
    rewrite appendDataPoint_length. repeat split; lia.
Qed.

Lemma history_length_follows_updates_witness :
  List.length (historicalData (dashboard runningApp)) = 1%nat.
Proof.
  destruct (history_length_follows_updates mockRoadNetwork runningApp
              runningApp_reachable) as (Hlen & _).
  apply Nat2Z.inj. rewrite Hlen. reflexivity.
Defined.

(** ** The cycle length *)

Lemma cycle_lengths_exact :
  forallb (fun g =>
    forallb (fun y =>
      forallb (fun r => (Z2F g + Z2F y + Z2F r =? Z2F (g + y + r))%float)
              (Zrange 0 121))
            (Zrange 1 10))
          (Zrange 10 111) = true.
Proof.
  vm_compute. reflexivity.
Qed.

(** X23. For every position of the three signal sliders (green from 10 to
    120, yellow from 1 to 10, red from 0 to 120 seconds), the cycle length
    shown under them is exactly the sum of the three times: the binary64
    additions lose nothing. *)
Theorem cycle_length_exact (c : SimulationConfig) (g y r : Z) :
  (10 <= g <= 120)%Z -> (1 <= y <= 10)%Z -> (0 <= r <= 120)%Z ->
  green_time c = parseInt (string_of_Z g) ->
  yellow_time c = parseInt (string_of_Z y) ->
  red_time c = parseInt (string_of_Z r) ->
  (calculateCycleLength c =? Z2F (g + y + r))%float = true.
Proof.
  intros Hg Hy Hr Eg Ey Er. unfold calculateCycleLength. rewrite Eg, Ey, Er.
  assert (Hparse : forall v : Z, (0 <= v <= 120)%Z -> parseInt (string_of_Z v) = Z2F v).
  { intros v Hv.
    assert (Hn : exists n : nat, v = Z.of_nat n /\ (n <= 120)%nat)
      by (exists (Z.to_nat v); lia).
    destruct Hn as (n & -> & Hn).
    do 121 (destruct n as [| n]; [vm_compute; reflexivity |]). lia. }
  rewrite !Hparse by lia.
  pose proof cycle_lengths_exact as Hall.
  pose proof (forallb_Zrange _ _ _ Hall g ltac:(lia)) as H1. cbv beta in H1.
  pose proof (forallb_Zrange _ _ _ H1 y ltac:(lia)) as H2. cbv beta in H2.
  exact (forallb_Zrange _ _ _ H2 r ltac:(lia)).
Qed.

Lemma cycle_length_exact_witness :
  (calculateCycleLength defaultConfig =? 63)%float = true.
Proof.
  exact (cycle_length_exact defaultConfig 30 3 30 ltac:(lia) ltac:(lia) ltac:(lia)
           eq_refl eq_refl eq_refl).
Defined.

(** ** A stop with its delay *)

Lemma stopEnd_stopBegin (a : App) : stopEnd (stopBegin a) = handleStopSimulation a.
Proof.
  destruct a as [[cur net cfg tpl ld err] p f d w]. destruct cur; reflexivity.
Qed.

Lemma stopBegin_effect (a : App) :
  stopBegin a
  = {| store := with_isLoading true (store a);
       page := page a; form := form a; dashboard := dashboard a;
       window := clearSimulationInterval (window a) |}.
Proof.
  destruct a as [s p f d w]. reflexivity.
Qed.

Lemma stopEnd_effect (a : App) :
  stopEnd a
  = {| store :=
         updateMetrics zeroSample
           (with_isLoading false (dispatch STOP_SIMULATION (store a)));
       page := {| isRunning := false; currentMetrics := zeroSample |};
       form := form a; dashboard := dashboard a;
       window := window a |}.
Proof.
  destruct a as [s p f d w]. reflexivity.
Qed.

Lemma startDisabled_frame (a b : App) :
  config (form b) = config (form a) ->
  roadNetwork (store b) = roadNetwork (store a) ->
  startDisabled b = startDisabled a.
Proof.
  intros Hc Hn. unfold startDisabled. now rewrite Hc, Hn.
Qed.

(** X24. Without anything happening during its delay, the two halves of a
    stop make up [handleStopSimulation].  But a reset followed by a start,
    both clicked while a stop is waiting, leave the page inconsistent once
    the stop ends: the new session is marked ["completed"] and the page is
    not running, yet the interval installed by that start is still stored
    and active, so the sampler goes on ticking. *)
Theorem stop_reset_start_race (a : App) (now : Z) :
  isRunning (page a) = true -> startDisabled a = false ->
  let x0 := {| app := a; stopsInFlight := 0 |} in
  let x := asyncRun (stopResetStart now) x0 in
  stopEnd (stopBegin a) = handleStopSimulation a
  /\ asyncDeliverable (stopResetStart now) x0 = true
  /\ stopsInFlight x = 0%nat
  /\ isRunning (page (app x)) = false
  /\ currentSimulation (store (app x))
     = Some {| simulation_id := "sim_" ++ string_of_Z now;
               status := Completed;
               message := "Simulation completed";
               metrics := Some zeroSample |}
  /\ simulationInterval (window (app x)) = Some (nextHandle (window a))
  /\ In (nextHandle (window a)) (activeIntervals (window (app x)))
  /\ (forall r1 r2 r3 r4 : number,
        isRandom r1 = true -> isRandom r2 = true ->
        isRandom r3 = true -> isRandom r4 = true ->
        enabled (MetricsTick (nextHandle (window a)) r1 r2 r3 r4) (app x) = true).
Proof.
  intros Hrun Hen. cbv zeta.
  split; [apply stopEnd_stopBegin |].
  assert (Hen' : startDisabled (handleReset (stopBegin a)) = false).
  { rewrite <- Hen. apply startDisabled_frame.
    - destruct a as [s p f d w]; reflexivity.
    - destruct a as [[[cur |] net cfg tpl ld err] p f d w]; reflexivity. }
  assert (Hidle : isRunning (page (handleReset (stopBegin a))) = false).
  { rewrite handleReset_effect. reflexivity. }
  assert (Hstart : clickStart now (handleReset (stopBegin a))
                   = formHandleStartSimulation now (handleReset (stopBegin a))).
  { unfold clickStart. now rewrite Hidle, Hen'. }
  unfold stopResetStart, asyncRun, asyncDeliverable.
  cbn [fold_left asyncHandle asyncEnabled app stopsInFlight enabled handle].
  rewrite Hrun. cbn [app stopsInFlight handle Nat.eqb negb andb Nat.pred].
  rewrite Hstart, stopEnd_effect, formHandleStartSimulation_effect, handleReset_effect,
    stopBegin_effect.
  cbn [store page form dashboard window].
  assert (Hw : setSimulationInterval
                 (clearSimulationInterval (clearSimulationInterval (window a)))
               = {| simulationInterval := Some (nextHandle (window a));
                    activeIntervals :=
                      nextHandle (window a)
                      :: activeIntervals (clearSimulationInterval (window a));
                    nextHandle := Pos.succ (nextHandle (window a)) |}).
  { rewrite clearSimulationInterval_idempotent.
    unfold setSimulationInterval, clearSimulationInterval.
    destruct (simulationInterval (window a)); reflexivity. }
  rewrite Hw. cbn [simulationInterval activeIntervals existsb].
  rewrite Pos.eqb_refl.
  split; [reflexivity |]. split; [reflexivity |]. split; [reflexivity |].
  split; [reflexivity |]. split; [reflexivity |]. split; [left; reflexivity |].
  intros r1 r2 r3 r4 H1 H2 H3 H4. now rewrite H1, H2, H3, H4.
Qed.

Lemma stop_reset_start_race_witness :
  sessionStatus (app (asyncRun (stopResetStart 1700000001000)
                        {| app := runningApp; stopsInFlight := 0 |}))
  = Some Completed
  /\ simulationInterval
       (window (app (asyncRun (stopResetStart 1700000001000)
                       {| app := runningApp; stopsInFlight := 0 |})))
     = Some 2%positive.
Proof.
  destruct (stop_reset_start_race runningApp 1700000001000 eq_refl
              ltac:(vm_compute; reflexivity)) as (_ & _ & _ & _ & Hcur & Hint & _).
  unfold sessionStatus. rewrite Hcur. split; [reflexivity | exact Hint].
Defined.

Lemma storeShape_handle (network : RoadNetwork.t) (e : Event) (a : App) :
  storeShape network a -> storeShape network (handle e a).
Proof.
  intros (Hnet & Htpl & Herr & Hst & Hlen). unfold storeShape, sessionStatus in *.
  destruct e as [now | | | h r1 r2 r3 r4 | ts | v | v | fld v | key |]; cbn [handle].
  - destruct (clickStart_cases now a) as [[-> _] | [-> _]]; [repeat split; auto |].
    rewrite formHandleStartSimulation_effect. cbn. repeat split; auto; tauto.
  - unfold clickStop. destruct (isRunning (page a)); [| repeat split; auto].
    rewrite handleStopSimulation_effect. cbn.
    destruct (currentSimulation (store a)); cbn; repeat split; auto; tauto.
  - rewrite handleReset_effect. cbn.
    destruct (currentSimulation (store a)); cbn in *; repeat split; auto; tauto.
  - destruct a as [s p f d w]. cbn in *.
    destruct (currentSimulation s); cbn in *; repeat split; auto; tauto.
  - destruct a as [s p f d w]. cbn in *.
    rewrite appendDataPoint_length. repeat split; auto. lia.
  - destruct a as [s p f d w]. cbn in *. repeat split; auto; tauto.
  - destruct a as [s p f d w]. cbn in *. repeat split; auto; tauto.
  - destruct a as [s p f d w]. cbn in *. repeat split; auto; tauto.
  - destruct a as [s p f d w]. cbn in *. repeat split; auto; tauto.
  - destruct a as [s p f d w]. cbn in *. repeat split; auto; tauto.
Qed.

(** X25. However clicks, ticks and the ends of waiting stops interleave,
    the store keeps the road network and the templates and records no
    error, the session, if any, is ["running"] or ["completed"] and never
    ["idle"], ["paused"] or ["error"], and the chart history holds at most
    20 points. *)
Theorem async_store_shape (network : RoadNetwork.t) (x : AsyncApp) :
  asyncReachable network x ->
  roadNetwork (store (app x)) = Some network
  /\ templates (store (app x)) = mockTemplates
  /\ error (store (app x)) = None
  /\ (sessionStatus (app x) = None \/ sessionStatus (app x) = Some Running
      \/ sessionStatus (app x) = Some Completed)
  /\ (List.length (historicalData (dashboard (app x))) <= 20)%nat.
Proof.
  induction 1 as [| x e _ IH _].
  - cbn. repeat split; auto. lia.
  - fold (storeShape network (app x)) in IH.
    fold (storeShape network (app (asyncHandle e x))).
    destruct e as [e |]; cbn [asyncHandle].
    + assert (Hh : storeShape network (handle e (app x)))
        by now apply storeShape_handle.
      destruct e; try exact Hh.
      destruct (isRunning (page (app x))); [| exact IH].
      cbn [app]. destruct IH as (Hnet & Htpl & Herr & Hst & Hlen).
      unfold storeShape, sessionStatus in *.
      destruct (app x) as [s p f d w]. cbn in *. repeat split; auto; tauto.
    + cbn [app]. destruct IH as (Hnet & Htpl & Herr & Hst & Hlen).
      unfold storeShape, sessionStatus in *.
      destruct (app x) as [s p f d w]. cbn in *.
      destruct (currentSimulation s); cbn; repeat split; auto; tauto.
Qed.

Lemma async_store_shape_witness :
  roadNetwork
    (store (app (asyncRun [Delivered (StartClicked 1700000000000); Delivered StopClicked]
                   {| app := initialApp mockRoadNetwork; stopsInFlight := 0 |})))
  = Some mockRoadNetwork.
Proof.
  assert (Hreach : asyncReachable mockRoadNetwork
            (asyncRun [Delivered (StartClicked 1700000000000); Delivered StopClicked]
               {| app := initialApp mockRoadNetwork; stopsInFlight := 0 |})).
  { apply async_step; [| reflexivity].
    apply async_step; [apply async_init | vm_compute; reflexivity]. }
  exact (proj1 (async_store_shape mockRoadNetwork _ Hreach)).
Defined.
